(** * Content-processing pipeline: the extraction step and the settings singleton

    A shallow embedding of
    - [src/ContentProcessor/src/libs/pipeline/handlers/extract_handler.py]
      ([ExtractHandler.execute]), and
    - [src/ContentProcessorAPI/app/appsettings.py] ([get_app_config]).

    Python code is effectful: it mutates the run context, calls external
    collaborators and raises exceptions.  The embedding threads an explicit
    state through a small state-and-exception monad.  State changes made
    before an exception is raised stay in place, as in Python. *)

From Stdlib Require Import ZArith.
From stdpp Require Import base strings list gmap.

(** ** Python outcomes *)

Module Py.

(** The exception classes the two programs can tell apart.  [HTTPError] is
    [requests.exceptions.HTTPError] with the status code of its response;
    [IndexError] is what indexing a list out of range raises;
    [AttributeError] is what [getattr] raises; every other class is
    [OtherException] with its class name. *)
Inductive Exn : Type :=
| HTTPError (status_code : Z)
| IndexError
| AttributeError (attr : string)
| OtherException (cls : string).

(** [isinstance(e, requests.exceptions.HTTPError)] *)
Definition is_HTTPError (e : Exn) : bool :=
  match e with
  | HTTPError _ => true
  | _ => false
  end.

(** The not-found condition of the analysis service: HTTP status 404. *)
Definition is_not_found (e : Exn) : bool :=
  match e with
  | HTTPError 404 => true
  | _ => false
  end.

Inductive Outcome (A : Type) : Type :=
| Returned (a : A)
| Raised (e : Exn).
Arguments Returned {A} a.
Arguments Raised {A} e.

Definition returned {A} (o : Outcome A) : bool :=
  match o with
  | Returned _ => true
  | Raised _ => false
  end.

(** [l[i]] on a Python list: [IndexError] out of range. *)
Definition index {A} (l : list A) (i : nat) : Outcome A :=
  match l !! i with
  | Some x => Returned x
  | None => Raised IndexError
  end.

End Py.
Export Py.

(** ** The extraction step *)

Module Extract.

(** *** Data model *)

(** Modelled from the spec: the [ArtifactType] enumeration is not under src;
    the spec names these tags of its closed set. *)
Inductive ArtifactType : Type :=
| SourceContent
| ExtractedContent
| TransformedContent.

(** The two fields [execute] gives a [PipelineLogEntry]. *)
Record PipelineLogEntry : Type := {
  source : string;
  message : string;
}.

(** Modelled from the spec: the artifact entity is not under src; [execute]
    reads [name] and appends to [log_entries]. *)
Record Artifact : Type := {
  name : string;
  artifact_type : ArtifactType;
  log_entries : list PipelineLogEntry;
}.

(** Modelled from the spec: an input file reference, a storage location and
    a name. *)
Record FileRef : Type := {
  ref_location : string;
  ref_name : string;
}.

(** [StepResult(process_id=..., step_name=..., result={...})]; the [result]
    dict is a finite map from keys to strings. *)
Record StepResult : Type := {
  sr_process_id : string;
  sr_step_name : string;
  sr_result : gmap string string;
}.

Record PipelineStatus : Type := {
  process_id : string;
  schema_id : string;
}.

(** Modelled from the spec: the Pipeline Run Context ([context.data_pipeline])
    is not under src. *)
Record DataPipeline : Type := {
  pipeline_status : PipelineStatus;
  source_files : list FileRef;
  step_results : list (string * StepResult);
  files : list Artifact;
}.

(** The configuration attributes [execute] reads. *)
Record Configuration : Type := {
  app_content_understanding_endpoint : string;
  app_cosmos_connstr : string;
  app_cosmos_database : string;
  app_cosmos_container_schema : string;
  app_storage_blob_url : string;
  app_cps_configuration : string;
  app_cps_processes : string;
}.

(** [self]: the handler's name and the shared application context. *)
Record ExtractHandler : Type := {
  handler_name : string;
  configuration : Configuration;
}.

(** The catalog record: [selected_schema.FileName], [.ClassName]. *)
Record Schema : Type := {
  FileName : string;
  ClassName : string;
}.

(** Values the step only passes from one collaborator to the next are kept
    opaque, as their serialised text. *)
Definition SchemaModel : Type := string.
Definition Template : Type := string.
Definition Stream : Type := string.
Definition Response : Type := string.
Definition AnalyzedResult : Type := string.

(** *** Collaborator calls *)

(** One entry per call the step makes on a collaborator or on the context,
    with the arguments of the call, in call order.  The construction of the
    helper object and the parsing and dumping of the [AnalyzedResult] are not
    kept here. *)
Inductive Event : Type :=
| EvPrint (r : option StepResult)
| EvGetAnalyzerDetail (endpoint analyzer_id : string)
| EvGetSchema (connection_string database_name collection_name id : string)
| EvLoadSchemaFromBlob (account_url container_name blob_name module_name : string)
| EvBuildSchema (schema_model : SchemaModel)
| EvCreateAnalyzer (endpoint analyzer_id : string) (analyzer_template : Template)
| EvDownloadStream (file : FileRef) (account_url container_name : string)
| EvAnalyzeStream (endpoint analyzer_id : string) (file_stream : Stream)
| EvPollResult (endpoint : string) (response : Response)
| EvAddFile (file_name : string) (type : ArtifactType)
| EvUpload (file : Artifact) (account_url container_name text : string).

(** A call as it is kept in the history: what was called, and the exception
    it raised, if any. *)
Record Call : Type := {
  event : Event;
  raised : option Exn;
}.

Definition raised_by {A} (o : Outcome A) : option Exn :=
  match o with
  | Returned _ => None
  | Raised e => Some e
  end.

(** The collaborators, none of which is under src, are parameters: each
    answers a call from its arguments and from the calls made so far, so an
    external service may change its answers over time.  The helper methods
    take the endpoint their helper object was built with. *)
Record Collaborators : Type := {
  new_AzureContentUnderstandingHelper : list Call -> string -> Outcome unit;
  get_analyzer_detail_by_id : list Call -> string -> string -> Outcome unit;
  get_schema : list Call -> string -> string -> string -> string -> Outcome Schema;
  load_schema_from_blob :
    list Call -> string -> string -> string -> string -> Outcome SchemaModel;
  build_content_understanding_schema : SchemaModel -> Outcome Template;
  begin_create_analyzer : list Call -> string -> string -> Template -> Outcome unit;
  download_stream : list Call -> FileRef -> string -> string -> Outcome Stream;
  begin_analyze_stream : list Call -> string -> string -> Stream -> Outcome Response;
  poll_result : list Call -> string -> Response -> Outcome Response;
  parse_AnalyzedResult : Response -> Outcome AnalyzedResult;
  model_dump_json : AnalyzedResult -> string;
  upload_json_text : list Call -> Artifact -> string -> string -> string -> Outcome unit;
}.

(** *** State and the monad *)

Record World : Type := {
  data_pipeline : DataPipeline;
  history : list Call;
}.

Definition M (A : Type) : Type := World -> Outcome A * World.

Definition ret {A} (a : A) : M A := fun w => (Returned a, w).

Definition bind {A B} (m : M A) (k : A -> M B) : M B :=
  fun w =>
    match m w with
    | (Returned a, w') => k a w'
    | (Raised e, w') => (Raised e, w')
    end.

#[global] Instance M_ret : MRet M := @ret.
#[global] Instance M_bind : MBind M := fun A B k m => bind m k.

(** [try: body  except <class>: handler] *)
Definition try_except (body : M unit) (catches : Exn -> bool) (handler : M unit)
  : M unit :=
  fun w =>
    match body w with
    | (Returned a, w') => (Returned a, w')
    | (Raised e, w') => if catches e then handler w' else (Raised e, w')
    end.

Definition lift {A} (o : Outcome A) : M A := fun w => (o, w).

Definition get_pipeline : M DataPipeline := fun w => (Returned (data_pipeline w), w).

Definition log_call (ev : Event) (exn : option Exn) (w : World) : World :=
  {| data_pipeline := data_pipeline w;
     history := history w ++ [{| event := ev; raised := exn |}] |}.

(** [print(...)] *)
Definition print (r : option StepResult) : M unit :=
  fun w => (Returned tt, log_call (EvPrint r) None w).

(** A call to a collaborator: answered from the calls that came before it,
    then kept in the history with its outcome. *)
Definition call {A} (ev : Event) (answer : list Call -> Outcome A) : M A :=
  fun w =>
    let o := answer (history w) in
    (o, log_call ev (raised_by o) w).

(** The construction of a collaborator: answered from the calls made so
    far, and not kept in the history. *)
Definition construct {A} (answer : list Call -> Outcome A) : M A :=
  fun w => (answer (history w), w).

(** *** The run context's methods *)

(** Modelled from the spec: [get_previous_step_result] is not under src;
    lookup by step name, absent if that step has not run. *)
Fixpoint lookup_step (step_name : string) (rs : list (string * StepResult))
  : option StepResult :=
  match rs with
  | [] => None
  | (n, r) :: rs' => if String.eqb n step_name then Some r else lookup_step step_name rs'
  end.

Definition get_previous_step_result (step_name : string) : M (option StepResult) :=
  dp ← get_pipeline; ret (lookup_step step_name (step_results dp)).

(** Modelled from the spec: [get_source_files] is not under src; the intake
    documents in order. *)
Definition get_source_files : M (list FileRef) :=
  dp ← get_pipeline; ret (source_files dp).

Definition set_files (fs : list Artifact) (dp : DataPipeline) : DataPipeline :=
  {| pipeline_status := pipeline_status dp;
     source_files := source_files dp;
     step_results := step_results dp;
     files := fs |}.

(** Modelled from the spec: [add_file] is not under src; it allocates a new
    artifact entry with the given name and type and no log entry, appends it
    to [files] and returns it.  The returned object is the one stored in
    [files]: the model returns its position there. *)
Definition add_file (file_name : string) (type : ArtifactType) : M nat :=
  fun w =>
    let dp := data_pipeline w in
    let new := {| name := file_name; artifact_type := type; log_entries := [] |} in
    (Returned (length (files dp)),
     {| data_pipeline := set_files (files dp ++ [new]) dp;
        history := history w ++ [{| event := EvAddFile file_name type; raised := None |}] |}).

(** Reading the artifact an object reference points to. *)
Definition deref (ref : nat) : M Artifact :=
  dp ← get_pipeline; lift (index (files dp) ref).

Definition append_log (entry : PipelineLogEntry) (a : Artifact) : Artifact :=
  {| name := name a;
     artifact_type := artifact_type a;
     log_entries := log_entries a ++ [entry] |}.

(** [result_file.log_entries.append(entry)]: the artifact is updated in
    place, so the entry shows in the context's [files]. *)
Definition log_entries_append (ref : nat) (entry : PipelineLogEntry) : M unit :=
  fun w =>
    let dp := data_pipeline w in
    (Returned tt,
     {| data_pipeline := set_files (alter (append_log entry) ref (files dp)) dp;
        history := history w |}).

(** *** [ExtractHandler.execute] *)

Section Execute.

Variable env : Collaborators.
Variable self : ExtractHandler.

Let cfg : Configuration := configuration self.

(** The body of the [except requests.exceptions.HTTPError] clause. *)
Definition provision (analyzer_id : string) : M unit :=
  selected_schema ←
    call (EvGetSchema (app_cosmos_connstr cfg) (app_cosmos_database cfg)
            (app_cosmos_container_schema cfg) analyzer_id)
         (fun h => get_schema env h (app_cosmos_connstr cfg) (app_cosmos_database cfg)
                     (app_cosmos_container_schema cfg) analyzer_id);
  let container_name := app_cps_configuration cfg +:+ "/Schemas/" +:+ analyzer_id in
  schema_model ←
    call (EvLoadSchemaFromBlob (app_storage_blob_url cfg) container_name
            (FileName selected_schema) (ClassName selected_schema))
         (fun h => load_schema_from_blob env h (app_storage_blob_url cfg) container_name
                     (FileName selected_schema) (ClassName selected_schema));
  cu_schema ←
    call (EvBuildSchema schema_model)
         (fun _ => build_content_understanding_schema env schema_model);
  call (EvCreateAnalyzer (app_content_understanding_endpoint cfg) analyzer_id cu_schema)
       (fun h => begin_create_analyzer env h (app_content_understanding_endpoint cfg)
                   analyzer_id cu_schema).

Definition execute : M StepResult :=
  previous ← get_previous_step_result (handler_name self);
  print previous;;
  dp ← get_pipeline;
  let analyzer_id := schema_id (pipeline_status dp) in
  let endpoint := app_content_understanding_endpoint cfg in
  construct (fun h => new_AzureContentUnderstandingHelper env h endpoint);;
  try_except
    (call (EvGetAnalyzerDetail endpoint analyzer_id)
          (fun h => get_analyzer_detail_by_id env h endpoint analyzer_id))
    is_HTTPError
    (provision analyzer_id);;
  sources ← get_source_files;
  first ← lift (index sources 0);
  file_stream ←
    call (EvDownloadStream first (app_storage_blob_url cfg) (app_cps_processes cfg))
         (fun h => download_stream env h first (app_storage_blob_url cfg)
                     (app_cps_processes cfg));
  response ←
    call (EvAnalyzeStream endpoint analyzer_id file_stream)
         (fun h => begin_analyze_stream env h endpoint analyzer_id file_stream);
  response ←
    call (EvPollResult endpoint response)
         (fun h => poll_result env h endpoint response);
  result ← lift (parse_AnalyzedResult env response);
  result_file ← add_file "content_understanding_output.json" ExtractedContent;
  log_entries_append result_file
    {| source := handler_name self;
       message := "Content Understanding Extraction Result has been added" |};;
  let text := model_dump_json env result in
  uploaded ← deref result_file;
  call (EvUpload uploaded (app_storage_blob_url cfg) (app_cps_processes cfg) text)
       (fun h => upload_json_text env h uploaded (app_storage_blob_url cfg)
                   (app_cps_processes cfg) text);;
  dp ← get_pipeline;
  created ← deref result_file;
  ret {| sr_process_id := process_id (pipeline_status dp);
         sr_step_name := handler_name self;
         sr_result := {[ "result" := "success"; "file_name" := name created ]} |}.

End Execute.

(** *** Observing an execution *)

(** The calls one execution adds to the history, in call order. *)
Definition calls_of (env : Collaborators) (self : ExtractHandler) (w : World)
  : list Call :=
  drop (length (history w)) (history (execute env self w).2).

(** The calls of the provisioning branch. *)
Definition is_provisioning (ev : Event) : bool :=
  match ev with
  | EvGetSchema _ _ _ _ | EvLoadSchemaFromBlob _ _ _ _
  | EvBuildSchema _ | EvCreateAnalyzer _ _ _ => true
  | _ => false
  end.

Definition is_create_analyzer (ev : Event) : bool :=
  match ev with
  | EvCreateAnalyzer _ _ _ => true
  | _ => false
  end.

(** The calls that go over the network: the analysis service, the catalog
    and the object store. *)
Definition is_network_call (ev : Event) : bool :=
  match ev with
  | EvPrint _ | EvBuildSchema _ | EvAddFile _ _ => false
  | _ => true
  end.

(** The calls that come after the analyzer has been resolved. *)
Definition is_analysis_or_later (ev : Event) : bool :=
  match ev with
  | EvDownloadStream _ _ _ | EvAnalyzeStream _ _ _ | EvPollResult _ _
  | EvAddFile _ _ | EvUpload _ _ _ _ => true
  | _ => false
  end.

Definition is_add_file_or_upload (ev : Event) : bool :=
  match ev with
  | EvAddFile _ _ | EvUpload _ _ _ _ => true
  | _ => false
  end.

Definition is_add_file (ev : Event) : bool :=
  match ev with
  | EvAddFile _ _ => true
  | _ => false
  end.

Fixpoint count (p : Event -> bool) (t : list Call) : nat :=
  match t with
  | [] => 0
  | c :: t' => (if p (event c) then 1 else 0) + count p t'
  end.

(** The first two calls of every execution: the print of the step's own
    previous result and the existence check of the analyzer named by the
    run's [schema_id], with the exception the check raised, if any. *)
Definition print_call (self : ExtractHandler) (w : World) : Call :=
  {| event := EvPrint (lookup_step (handler_name self) (step_results (data_pipeline w)));
     raised := None |}.

Definition existence_check (self : ExtractHandler) (w : World) (exn : option Exn) : Call :=
  {| event := EvGetAnalyzerDetail
                (app_content_understanding_endpoint (configuration self))
                (schema_id (pipeline_status (data_pipeline w)));
     raised := exn |}.

(** The artifact the step leaves behind. *)
Definition extraction_artifact (self : ExtractHandler) : Artifact :=
  {| name := "content_understanding_output.json";
     artifact_type := ExtractedContent;
     log_entries :=
       [{| source := handler_name self;
           message := "Content Understanding Extraction Result has been added" |}] |}.

(** *** The driver *)

(** Modelled from the spec: the pipeline driver is not under src; it appends
    the result a step returned to the context's step-result history. *)
Definition record_result (r : StepResult) (w : World) : World :=
  let dp := data_pipeline w in
  {| data_pipeline :=
       {| pipeline_status := pipeline_status dp;
          source_files := source_files dp;
          step_results := step_results dp ++ [(sr_step_name r, r)];
          files := files dp |};
     history := history w |}.

(** Modelled from the spec: the pipeline driver is not under src; it invokes
    the configured steps in order, records each returned result and passes
    the context on, and stops at the first step that fails. *)
Fixpoint drive (env : Collaborators) (steps : list ExtractHandler) (w : World)
  : Outcome unit * World :=
  match steps with
  | [] => (Returned tt, w)
  | self :: rest =>
      match execute env self w with
      | (Returned r, w') => drive env rest (record_result r w')
      | (Raised e, w') => (Raised e, w')
      end
  end.

(** A recorded step result carries the process id [pid]. *)
Definition carries (pid : string) (recorded : string * StepResult) : Prop :=
  sr_process_id recorded.2 = pid.

(** *** A concrete deployment, used to run the step *)

Module Scenario.

(** The settings of [tests/test_main.py]. *)
Definition settings : Configuration :=
  {| app_content_understanding_endpoint := "https://example.com/content";
     app_cosmos_connstr := "AccountEndpoint=https://example.com;AccountKey=key;";
     app_cosmos_database := "database-name";
     app_cosmos_container_schema := "container-schema";
     app_storage_blob_url := "https://example.com/blob";
     app_cps_configuration := "value";
     app_cps_processes := "4" |}.

Definition extract : ExtractHandler :=
  {| handler_name := "extract"; configuration := settings |}.

Definition invoice : FileRef :=
  {| ref_location := "p-001"; ref_name := "invoice.pdf" |}.

Definition run (sources : list FileRef) : World :=
  {| data_pipeline :=
       {| pipeline_status := {| process_id := "p-001"; schema_id := "inv-2025" |};
          source_files := sources;
          step_results := [];
          files := [] |};
     history := [] |}.

(** An analysis service that keeps the analyzers it was asked to create. *)
Fixpoint analyzer_created (id : string) (h : list Call) : bool :=
  match h with
  | [] => false
  | c :: h' =>
      match event c, raised c with
      | EvCreateAnalyzer _ id' _, None => String.eqb id' id || analyzer_created id h'
      | _, _ => analyzer_created id h'
      end
  end.

(** [outage]: the error the existence check fails with while the service is
    down, if it is; [poll]: how a job ends. *)
Definition service (outage : option Exn) (poll : Outcome Response) : Collaborators :=
  {| new_AzureContentUnderstandingHelper _ _ := Returned tt;
     get_analyzer_detail_by_id h _ id :=
       match outage with
       | Some e => Raised e
       | None => if analyzer_created id h then Returned tt else Raised (HTTPError 404)
       end;
     get_schema _ _ _ _ _ := Returned {| FileName := "invoice.py"; ClassName := "Invoice" |};
     load_schema_from_blob _ _ _ _ module_name := Returned module_name;
     build_content_understanding_schema m := Returned ("template:" +:+ m);
     begin_create_analyzer _ _ _ _ := Returned tt;
     download_stream _ f _ _ := Returned (ref_name f);
     begin_analyze_stream _ _ _ _ := Returned "operation-1";
     poll_result _ _ _ := poll;
     parse_AnalyzedResult r := Returned r;
     model_dump_json r := r;
     upload_json_text _ _ _ _ _ := Returned tt |}.

End Scenario.

End Extract.

(** ** The settings singleton *)

Module AppSettings.

(** [class AppConfiguration(ModelBaseSettings)] *)
Record AppConfiguration : Type := {
  app_storage_blob_url : string;
  app_storage_queue_url : string;
  app_cosmos_connstr : string;
  app_cosmos_database : string;
  app_cosmos_container_schema : string;
  app_cosmos_container_process : string;
  app_cps_configuration : string;
  app_cps_processes : string;
  app_message_queue_extract : string;
  app_cps_max_filesize_mb : Z;
  app_logging_enable : bool;
  app_logging_level : string;
}.

(** What [getattr(logging, name)] can give: an [int], as the level
    constants are; a [str]; or an object that is neither, such as a function
    or a class of the module. *)
Inductive LoggingAttr : Type :=
| Level (n : Z)
| Text (s : string)
| NotALevel.

(** [logging.CRITICAL] *)
Definition CRITICAL : Z := 50.

(** What a call leaves behind outside the module's global: the
    constructions of [AppConfiguration] and the calls into [logging] that
    configure it, each with its argument, and [basicConfig] with the
    exception it raised, if any. *)
Inductive Effect : Type :=
| Constructed (c : AppConfiguration)
| ConstructionFailed (e : Exn)
| BasicConfig (level : LoggingAttr) (raised : option Exn)
| Disable (level : Z).

(** The surroundings of the module: [AppConfiguration()] reads the process
    environment and the [.env] file and raises when a setting is missing or
    ill-typed, and the environment may change as the process runs;
    [getattr(logging, name)] raises when the module has no such attribute;
    [logging.basicConfig(level=...)] belongs to Python's library and is
    answered from what happened before: what it does to the root logger, and
    whether it raises on its [level], depends on the handlers the root logger
    has when it is called. *)
Record Environment : Type := {
  new_AppConfiguration : list Effect -> Outcome AppConfiguration;
  getattr_logging : string -> Outcome LoggingAttr;
  basicConfig : list Effect -> LoggingAttr -> Outcome unit;
}.

(** The process: the module global [app_config] and the effects so far. *)
Record Process : Type := {
  app_config : option AppConfiguration;
  effects : list Effect;
}.

(** [app_config: AppConfiguration | None = None] *)
Definition initial : Process := {| app_config := None; effects := [] |}.

Definition get_app_config (env : Environment) (st : Process)
  : Outcome AppConfiguration * Process :=
  match app_config st with
  | Some c => (Returned c, st)
  | None =>
      match new_AppConfiguration env (effects st) with
      | Raised e =>
          (Raised e,
           {| app_config := None; effects := effects st ++ [ConstructionFailed e] |})
      | Returned c =>
          let assigned := effects st ++ [Constructed c] in
          if app_logging_enable c then
            match getattr_logging env (app_logging_level c) with
            | Raised e => (Raised e, {| app_config := Some c; effects := assigned |})
            | Returned logging_level =>
                match basicConfig env assigned logging_level with
                | Raised e =>
                    (Raised e,
                     {| app_config := Some c;
                        effects := assigned ++ [BasicConfig logging_level (Some e)] |})
                | Returned _ =>
                    (Returned c,
                     {| app_config := Some c;
                        effects := assigned ++ [BasicConfig logging_level None] |})
                end
            end
          else
            (Returned c,
             {| app_config := Some c; effects := assigned ++ [Disable CRITICAL] |})
      end
  end.

(** [n] calls in a row, with what each gave. *)
Fixpoint call_times (env : Environment) (n : nat) (st : Process)
  : list (Outcome AppConfiguration) * Process :=
  match n with
  | O => ([], st)
  | S n' =>
      let (o, st1) := get_app_config env st in
      let (os, st2) := call_times env n' st1 in
      (o :: os, st2)
  end.

Definition is_constructed (ef : Effect) : bool :=
  match ef with
  | Constructed _ => true
  | _ => false
  end.

(** A call that configures [logging].  A [basicConfig] that raised counts
    as well: it may have installed the root handler before it raised. *)
Definition is_logging_configured (ef : Effect) : bool :=
  match ef with
  | BasicConfig _ _ | Disable _ => true
  | _ => false
  end.

Fixpoint count_effects (p : Effect -> bool) (l : list Effect) : nat :=
  match l with
  | [] => 0
  | ef :: l' => (if p ef then 1 else 0) + count_effects p l'
  end.

(** The objects the calls returned. *)
Fixpoint returned_objects (os : list (Outcome AppConfiguration)) : list AppConfiguration :=
  match os with
  | [] => []
  | Returned c :: os' => c :: returned_objects os'
  | Raised _ :: os' => returned_objects os'
  end.

(** The state of the singleton: nothing was constructed and logging was not
    configured while the global is unset; with the global set, one
    construction succeeded and logging was configured at most once. *)
Definition consistent (st : Process) : Prop :=
  match app_config st with
  | None =>
      count_effects is_constructed (effects st) = 0 /\
      count_effects is_logging_configured (effects st) = 0
  | Some _ =>
      count_effects is_constructed (effects st) = 1 /\
      count_effects is_logging_configured (effects st) <= 1
  end.

(** The settings of [tests/test_main.py], with a chosen logging level. *)
Definition settings (level : string) : AppConfiguration :=
  {| app_storage_blob_url := "https://example.com/blob";
     app_storage_queue_url := "https://example.com/queue";
     app_cosmos_connstr := "AccountEndpoint=https://example.com;AccountKey=key;";
     app_cosmos_database := "database-name";
     app_cosmos_container_schema := "container-schema";
     app_cosmos_container_process := "container-process";
     app_cps_configuration := "value";
     app_cps_processes := "4";
     app_message_queue_extract := "extract";
     app_cps_max_filesize_mb := 20;
     app_logging_enable := true;
     app_logging_level := level |}.

(** The same settings with logging switched off. *)
Definition without_logging (c : AppConfiguration) : AppConfiguration :=
  {| app_storage_blob_url := app_storage_blob_url c;
     app_storage_queue_url := app_storage_queue_url c;
     app_cosmos_connstr := app_cosmos_connstr c;
     app_cosmos_database := app_cosmos_database c;
     app_cosmos_container_schema := app_cosmos_container_schema c;
     app_cosmos_container_process := app_cosmos_container_process c;
     app_cps_configuration := app_cps_configuration c;
     app_cps_processes := app_cps_processes c;
     app_message_queue_extract := app_message_queue_extract c;
     app_cps_max_filesize_mb := app_cps_max_filesize_mb c;
     app_logging_enable := false;
     app_logging_level := app_logging_level c |}.

(** A sample of the attributes of Python's [logging], for the scenarios
    below: the level constants under each of their names, the flags of the
    module ([True], an [int]), its format string, and its public functions
    and classes.  The sample answers a name it does not list as a missing
    attribute; names are case-sensitive. *)
Definition logging_attributes : list (string * LoggingAttr) :=
  [ ("CRITICAL", Level 50); ("FATAL", Level 50); ("ERROR", Level 40);
    ("WARNING", Level 30); ("WARN", Level 30); ("INFO", Level 20);
    ("DEBUG", Level 10); ("NOTSET", Level 0);
    ("raiseExceptions", Level 1); ("logThreads", Level 1);
    ("logMultiprocessing", Level 1); ("logProcesses", Level 1);
    ("BASIC_FORMAT", Text "%(levelname)s:%(name)s:%(message)s");
    ("critical", NotALevel); ("fatal", NotALevel); ("error", NotALevel);
    ("exception", NotALevel); ("warning", NotALevel); ("warn", NotALevel);
    ("info", NotALevel); ("debug", NotALevel); ("log", NotALevel);
    ("disable", NotALevel); ("basicConfig", NotALevel); ("shutdown", NotALevel);
    ("getLogger", NotALevel); ("getLoggerClass", NotALevel);
    ("setLoggerClass", NotALevel); ("getLevelName", NotALevel);
    ("addLevelName", NotALevel); ("makeLogRecord", NotALevel);
    ("getLogRecordFactory", NotALevel); ("setLogRecordFactory", NotALevel);
    ("captureWarnings", NotALevel); ("lastResort", NotALevel); ("root", NotALevel);
    ("Logger", NotALevel); ("LoggerAdapter", NotALevel); ("LogRecord", NotALevel);
    ("Handler", NotALevel); ("StreamHandler", NotALevel); ("FileHandler", NotALevel);
    ("NullHandler", NotALevel); ("Formatter", NotALevel);
    ("BufferingFormatter", NotALevel); ("Filter", NotALevel) ].

Fixpoint lookup_attribute (name : string) (attrs : list (string * LoggingAttr))
  : Outcome LoggingAttr :=
  match attrs with
  | [] => Raised (AttributeError name)
  | (n, a) :: attrs' => if String.eqb name n then Returned a else lookup_attribute name attrs'
  end.

Definition python_logging (name : string) : Outcome LoggingAttr :=
  lookup_attribute name logging_attributes.

(** The names [logging] knows levels by, when a level is given as a [str]. *)
Definition is_level_name (s : string) : bool :=
  bool_decide (s ∈ ["CRITICAL"; "FATAL"; "ERROR"; "WARN"; "WARNING"; "INFO"; "DEBUG";
                    "NOTSET"]).

(** [logging.basicConfig(level=...)] in a process where nothing has given
    the root logger a handler: it installs one and then sets the level, which
    raises [TypeError] on what is neither an [int] nor a [str], and
    [ValueError] on a [str] that names no level. *)
Definition python_basicConfig (level : LoggingAttr) : Outcome unit :=
  match level with
  | Level _ => Returned tt
  | Text s => if is_level_name s then Returned tt else Raised (OtherException "ValueError")
  | NotALevel => Raised (OtherException "TypeError")
  end.

Definition process_with (level : string) : Environment :=
  {| new_AppConfiguration _ := Returned (settings level);
     getattr_logging := python_logging;
     basicConfig _ := python_basicConfig |}.

End AppSettings.

(** ** Further observations on the extraction step *)

Module ExtractObservations.
Import Extract.

Definition is_existence_check (ev : Event) : bool :=
  match ev with
  | EvGetAnalyzerDetail _ _ => true
  | _ => false
  end.

Definition is_poll (ev : Event) : bool :=
  match ev with
  | EvPollResult _ _ => true
  | _ => false
  end.

Definition is_upload (ev : Event) : bool :=
  match ev with
  | EvUpload _ _ _ _ => true
  | _ => false
  end.

(** Two calls go to the same function, whatever their arguments. *)
Definition same_function (a b : Event) : bool :=
  match a, b with
  | EvPrint _, EvPrint _
  | EvGetAnalyzerDetail _ _, EvGetAnalyzerDetail _ _
  | EvGetSchema _ _ _ _, EvGetSchema _ _ _ _
  | EvLoadSchemaFromBlob _ _ _ _, EvLoadSchemaFromBlob _ _ _ _
  | EvBuildSchema _, EvBuildSchema _
  | EvCreateAnalyzer _ _ _, EvCreateAnalyzer _ _ _
  | EvDownloadStream _ _ _, EvDownloadStream _ _ _
  | EvAnalyzeStream _ _ _, EvAnalyzeStream _ _ _
  | EvPollResult _ _, EvPollResult _ _
  | EvAddFile _ _, EvAddFile _ _
  | EvUpload _ _ _ _, EvUpload _ _ _ _ => true
  | _, _ => false
  end.

(** The same run with other source files. *)
Definition with_sources (sources : list FileRef) (w : World) : World :=
  let dp := data_pipeline w in
  {| data_pipeline :=
       {| pipeline_status := pipeline_status dp;
          source_files := sources;
          step_results := step_results dp;
          files := files dp |};
     history := history w |}.

(** *** The paths through [execute]

    [execute] as a relation: one rule for each place where the function can
    stop.  First the analyzer is resolved (lines 36-55), then the document is
    analysed and the result saved (lines 57-99). *)

Section Paths.

Variable env : Collaborators.
Variable self : ExtractHandler.
Variable w : World.

Definition fetch_call (o : option Exn) : Call :=
  {| event := EvGetSchema (app_cosmos_connstr (configuration self))
                (app_cosmos_database (configuration self))
                (app_cosmos_container_schema (configuration self))
                (schema_id (pipeline_status (data_pipeline w)));
     raised := o |}.

Definition load_call (selected_schema : Schema) (o : option Exn) : Call :=
  {| event := EvLoadSchemaFromBlob (app_storage_blob_url (configuration self))
                (app_cps_configuration (configuration self) +:+ "/Schemas/" +:+
                 schema_id (pipeline_status (data_pipeline w)))
                (FileName selected_schema) (ClassName selected_schema);
     raised := o |}.

Definition build_call (schema_model : SchemaModel) (o : option Exn) : Call :=
  {| event := EvBuildSchema schema_model; raised := o |}.

Definition create_call (cu_schema : Template) (o : option Exn) : Call :=
  {| event := EvCreateAnalyzer (app_content_understanding_endpoint (configuration self))
                (schema_id (pipeline_status (data_pipeline w))) cu_schema;
     raised := o |}.

Definition download_call (first : FileRef) (o : option Exn) : Call :=
  {| event := EvDownloadStream first (app_storage_blob_url (configuration self))
                (app_cps_processes (configuration self));
     raised := o |}.

Definition submit_call (file_stream : Stream) (o : option Exn) : Call :=
  {| event := EvAnalyzeStream (app_content_understanding_endpoint (configuration self))
                (schema_id (pipeline_status (data_pipeline w))) file_stream;
     raised := o |}.

Definition poll_call (response : Response) (o : option Exn) : Call :=
  {| event := EvPollResult (app_content_understanding_endpoint (configuration self)) response;
     raised := o |}.

Definition add_file_call : Call :=
  {| event := EvAddFile "content_understanding_output.json" ExtractedContent;
     raised := None |}.

Definition upload_call (text : string) (o : option Exn) : Call :=
  {| event := EvUpload (extraction_artifact self) (app_storage_blob_url (configuration self))
                (app_cps_processes (configuration self)) text;
     raised := o |}.

(** The answers of the collaborators at the place they are called from,
    with the calls of this execution that came before. *)
Definition helper_answer : Outcome unit :=
  new_AzureContentUnderstandingHelper env (history w ++ [print_call self w])
    (app_content_understanding_endpoint (configuration self)).

Definition check_answer : Outcome unit :=
  get_analyzer_detail_by_id env (history w ++ [print_call self w])
    (app_content_understanding_endpoint (configuration self))
    (schema_id (pipeline_status (data_pipeline w))).

Definition fetch_answer (before : list Call) : Outcome Schema :=
  get_schema env (history w ++ before) (app_cosmos_connstr (configuration self))
    (app_cosmos_database (configuration self))
    (app_cosmos_container_schema (configuration self))
    (schema_id (pipeline_status (data_pipeline w))).

Definition load_answer (before : list Call) (selected_schema : Schema) : Outcome SchemaModel :=
  load_schema_from_blob env (history w ++ before) (app_storage_blob_url (configuration self))
    (app_cps_configuration (configuration self) +:+ "/Schemas/" +:+
     schema_id (pipeline_status (data_pipeline w)))
    (FileName selected_schema) (ClassName selected_schema).

Definition create_answer (before : list Call) (cu_schema : Template) : Outcome unit :=
  begin_create_analyzer env (history w ++ before)
    (app_content_understanding_endpoint (configuration self))
    (schema_id (pipeline_status (data_pipeline w))) cu_schema.

Definition download_answer (before : list Call) (first : FileRef) : Outcome Stream :=
  download_stream env (history w ++ before) first (app_storage_blob_url (configuration self))
    (app_cps_processes (configuration self)).

Definition submit_answer (before : list Call) (file_stream : Stream) : Outcome Response :=
  begin_analyze_stream env (history w ++ before)
    (app_content_understanding_endpoint (configuration self))
    (schema_id (pipeline_status (data_pipeline w))) file_stream.

Definition poll_answer (before : list Call) (response : Response) : Outcome Response :=
  poll_result env (history w ++ before)
    (app_content_understanding_endpoint (configuration self)) response.

Definition upload_answer (before : list Call) (text : string) : Outcome unit :=
  upload_json_text env (history w ++ before) (extraction_artifact self)
    (app_storage_blob_url (configuration self)) (app_cps_processes (configuration self)) text.

(** Lines 36-55: the calls made to resolve the analyzer, and the error that
    ended the step there, if one did. *)
Inductive Resolved : list Call -> option Exn -> Prop :=
| resolved_exists :
    helper_answer = Returned tt ->
    check_answer = Returned tt ->
    Resolved [print_call self w; existence_check self w None] None
| resolved_lookup_failed e :
    helper_answer = Returned tt ->
    check_answer = Raised e ->
    is_HTTPError e = false ->
    Resolved [print_call self w; existence_check self w (Some e)] (Some e)
| resolved_fetch_failed e e' :
    helper_answer = Returned tt ->
    check_answer = Raised e ->
    is_HTTPError e = true ->
    fetch_answer [print_call self w; existence_check self w (Some e)] = Raised e' ->
    Resolved [print_call self w; existence_check self w (Some e); fetch_call (Some e')]
      (Some e')
| resolved_load_failed e selected_schema e' :
    helper_answer = Returned tt ->
    check_answer = Raised e ->
    is_HTTPError e = true ->
    fetch_answer [print_call self w; existence_check self w (Some e)]
    = Returned selected_schema ->
    load_answer [print_call self w; existence_check self w (Some e); fetch_call None]
      selected_schema = Raised e' ->
    Resolved [print_call self w; existence_check self w (Some e); fetch_call None;
              load_call selected_schema (Some e')]
      (Some e')
| resolved_build_failed e selected_schema schema_model e' :
    helper_answer = Returned tt ->
    check_answer = Raised e ->
    is_HTTPError e = true ->
    fetch_answer [print_call self w; existence_check self w (Some e)]
    = Returned selected_schema ->
    load_answer [print_call self w; existence_check self w (Some e); fetch_call None]
      selected_schema = Returned schema_model ->
    build_content_understanding_schema env schema_model = Raised e' ->
    Resolved [print_call self w; existence_check self w (Some e); fetch_call None;
              load_call selected_schema None; build_call schema_model (Some e')]
      (Some e')
| resolved_create_failed e selected_schema schema_model cu_schema e' :
    helper_answer = Returned tt ->
    check_answer = Raised e ->
    is_HTTPError e = true ->
    fetch_answer [print_call self w; existence_check self w (Some e)]
    = Returned selected_schema ->
    load_answer [print_call self w; existence_check self w (Some e); fetch_call None]
      selected_schema = Returned schema_model ->
    build_content_understanding_schema env schema_model = Returned cu_schema ->
    create_answer [print_call self w; existence_check self w (Some e); fetch_call None;
                   load_call selected_schema None; build_call schema_model None]
      cu_schema = Raised e' ->
    Resolved [print_call self w; existence_check self w (Some e); fetch_call None;
              load_call selected_schema None; build_call schema_model None;
              create_call cu_schema (Some e')]
      (Some e')
| resolved_provisioned e selected_schema schema_model cu_schema :
    helper_answer = Returned tt ->
    check_answer = Raised e ->
    is_HTTPError e = true ->
    fetch_answer [print_call self w; existence_check self w (Some e)]
    = Returned selected_schema ->
    load_answer [print_call self w; existence_check self w (Some e); fetch_call None]
      selected_schema = Returned schema_model ->
    build_content_understanding_schema env schema_model = Returned cu_schema ->
    create_answer [print_call self w; existence_check self w (Some e); fetch_call None;
                   load_call selected_schema None; build_call schema_model None]
      cu_schema = Returned tt ->
    Resolved [print_call self w; existence_check self w (Some e); fetch_call None;
              load_call selected_schema None; build_call schema_model None;
              create_call cu_schema None]
      None.

(** The whole of [execute]: how it ended, the calls it made and the context
    it left. *)
Inductive Ran : Outcome StepResult -> list Call -> DataPipeline -> Prop :=
| ran_helper_failed e :
    helper_answer = Raised e ->
    Ran (Raised e) [print_call self w] (data_pipeline w)
| ran_unresolved pre e :
    Resolved pre (Some e) ->
    Ran (Raised e) pre (data_pipeline w)
| ran_no_source pre :
    Resolved pre None ->
    source_files (data_pipeline w) = [] ->
    Ran (Raised IndexError) pre (data_pipeline w)
| ran_download_failed pre first rest e :
    Resolved pre None ->
    source_files (data_pipeline w) = first :: rest ->
    download_answer pre first = Raised e ->
    Ran (Raised e) (pre ++ [download_call first (Some e)]) (data_pipeline w)
| ran_submit_failed pre first rest file_stream e :
    Resolved pre None ->
    source_files (data_pipeline w) = first :: rest ->
    download_answer pre first = Returned file_stream ->
    submit_answer (pre ++ [download_call first None]) file_stream = Raised e ->
    Ran (Raised e) (pre ++ [download_call first None; submit_call file_stream (Some e)])
      (data_pipeline w)
| ran_poll_failed pre first rest file_stream job e :
    Resolved pre None ->
    source_files (data_pipeline w) = first :: rest ->
    download_answer pre first = Returned file_stream ->
    submit_answer (pre ++ [download_call first None]) file_stream = Returned job ->
    poll_answer (pre ++ [download_call first None; submit_call file_stream None]) job
    = Raised e ->
    Ran (Raised e)
      (pre ++ [download_call first None; submit_call file_stream None;
               poll_call job (Some e)])
      (data_pipeline w)
| ran_parse_failed pre first rest file_stream job response e :
    Resolved pre None ->
    source_files (data_pipeline w) = first :: rest ->
    download_answer pre first = Returned file_stream ->
    submit_answer (pre ++ [download_call first None]) file_stream = Returned job ->
    poll_answer (pre ++ [download_call first None; submit_call file_stream None]) job
    = Returned response ->
    parse_AnalyzedResult env response = Raised e ->
    Ran (Raised e)
      (pre ++ [download_call first None; submit_call file_stream None; poll_call job None])
      (data_pipeline w)
| ran_upload_failed pre first rest file_stream job response result e :
    Resolved pre None ->
    source_files (data_pipeline w) = first :: rest ->
    download_answer pre first = Returned file_stream ->
    submit_answer (pre ++ [download_call first None]) file_stream = Returned job ->
    poll_answer (pre ++ [download_call first None; submit_call file_stream None]) job
    = Returned response ->
    parse_AnalyzedResult env response = Returned result ->
    upload_answer
      (pre ++ [download_call first None; submit_call file_stream None; poll_call job None;
               add_file_call])
      (model_dump_json env result) = Raised e ->
    Ran (Raised e)
      (pre ++ [download_call first None; submit_call file_stream None; poll_call job None;
               add_file_call; upload_call (model_dump_json env result) (Some e)])
      (set_files (files (data_pipeline w) ++ [extraction_artifact self]) (data_pipeline w))
| ran_success pre first rest file_stream job response result :
    Resolved pre None ->
    source_files (data_pipeline w) = first :: rest ->
    download_answer pre first = Returned file_stream ->
    submit_answer (pre ++ [download_call first None]) file_stream = Returned job ->
    poll_answer (pre ++ [download_call first None; submit_call file_stream None]) job
    = Returned response ->
    parse_AnalyzedResult env response = Returned result ->
    upload_answer
      (pre ++ [download_call first None; submit_call file_stream None; poll_call job None;
               add_file_call])
      (model_dump_json env result) = Returned tt ->
    Ran (Returned
           {| sr_process_id := process_id (pipeline_status (data_pipeline w));
              sr_step_name := handler_name self;
              sr_result := {[ "result" := "success";
                              "file_name" := "content_understanding_output.json" ]} |})
      (pre ++ [download_call first None; submit_call file_stream None; poll_call job None;
               add_file_call; upload_call (model_dump_json env result) None])
      (set_files (files (data_pipeline w) ++ [extraction_artifact self]) (data_pipeline w)).

End Paths.

End ExtractObservations.

(** ** Properties of the extraction step *)

Module ExtractFacts.
Import Extract Extract.Scenario ExtractObservations.

(** The artifact [add_file] has just appended is the one its reference
    points to, for reading and for updating in place. *)
Lemma alter_appended {A} (f : A -> A) (l : list A) (x : A) :
  alter f (length l) (l ++ [x]) = l ++ [f x].
Proof.
  induction l as [|y l IH]; simpl; [reflexivity|].
  f_equal. exact IH.
Qed.

Lemma index_appended {A} (l : list A) (x : A) :
  index (l ++ [x]) (length l) = Returned x.
Proof.
  unfold index.
  induction l as [|y l IH]; simpl; [reflexivity | exact IH].
Qed.

Lemma index_nil {A} (i : nat) : index (@nil A) i = Raised IndexError.
Proof.
  destruct i; reflexivity.
Qed.

(** Symbolic execution of [execute]: unfold the monad, then split on the
    answer of each collaborator in call order, which leaves one goal per path
    through the function, with the calls of the path spelled out. *)
Ltac unfold_execute :=
  unfold calls_of, print_call, existence_check, extraction_artifact,
    execute, provision, mbind, mret, M_bind, M_ret, bind, ret, try_except,
    call, construct, print, lift, get_previous_step_result, get_source_files, get_pipeline,
    add_file, deref, log_entries_append, log_call;
  simpl;
  rewrite ?alter_appended, ?index_appended;
  simpl.

Ltac split_answer :=
  first
    [ progress (rewrite ?alter_appended, ?index_appended; simpl)
    | match goal with
      | |- context [match ?o with Returned _ => _ | Raised _ => _ end] =>
          destruct o eqn:?; simpl
      | |- context [if is_HTTPError ?e then _ else _] =>
          destruct (is_HTTPError e) eqn:?; simpl
      end ].

Ltac paths_knowing tac :=
  unfold_execute;
  repeat first [ progress tac | split_answer ];
  rewrite <- ?app_assoc;
  simpl;
  rewrite ?drop_app_length.

Ltac paths := paths_knowing idtac.

(** Which of the listed calls a call is. *)
Ltac which_call H :=
  rewrite ?elem_of_cons, ?elem_of_nil in H;
  repeat (destruct H as [H | H]; try discriminate H);
  try contradiction.

(** A call is among the calls of a concrete execution. *)
Ltac call_made :=
  vm_compute; repeat first [ apply elem_of_cons; left; reflexivity | apply elem_of_cons; right ].

Lemma index_head {A} (x : A) (l : list A) : index (x :: l) 0 = Returned x.
Proof.
  reflexivity.
Qed.

(** Closing one path: the calls are split into those that resolved the
    analyzer and the rest, then the rule of the path applies. *)
Ltac resolved :=
  solve [ econstructor; unfold helper_answer, check_answer, fetch_answer, load_answer, create_answer;
          simpl; eassumption ].

Ltac ran_with k :=
  match goal with
  | |- Ran _ _ _ _ ?l _ =>
      let pre := eval simpl in (take k l) in
      let post := eval simpl in (drop k l) in
      change l with (pre ++ post)
  end;
  econstructor;
  [ resolved
  | first [ eassumption | reflexivity
          | unfold download_answer, submit_answer, poll_answer, upload_answer;
            simpl; rewrite <- ?app_assoc; simpl; eassumption ] .. ].

(** Every execution follows one of the paths. *)
Lemma execute_ran env self w :
  Ran env self w (execute env self w).1 (calls_of env self w)
    (data_pipeline (execute env self w).2).
Proof.
  destruct (source_files (data_pipeline w)) as [|first rest] eqn:Hsrc.
  all: paths_knowing ltac:(rewrite ?Hsrc, ?index_nil, ?index_head; simpl).
  all: repeat match goal with a : unit |- _ => destruct a end.
  all: rewrite <- ?app_assoc in *; simpl in *.
  all: first [ solve [apply ran_helper_failed; unfold helper_answer; simpl; assumption]
             | solve [apply ran_unresolved; resolved]
             | solve [apply ran_no_source; [resolved | assumption]]
             | solve [ran_with 2]
             | solve [ran_with 6] ].
Qed.

(** Reasoning by cases on the path an execution took. *)
Ltac unfold_calls :=
  unfold fetch_call, load_call, build_call, create_call, download_call, submit_call,
    poll_call, add_file_call, upload_call, print_call, existence_check in *.

Ltac ran_cases env self w :=
  generalize (execute_ran env self w);
  generalize (data_pipeline (execute env self w).2);
  generalize (calls_of env self w);
  generalize ((execute env self w).1);
  let o := fresh "o" in
  let calls := fresh "calls" in
  let dp' := fresh "dp'" in
  let Hran := fresh "Hran" in
  intros o calls dp' Hran;
  destruct Hran;
  try match goal with
      | HR : Resolved _ _ _ _ _ |- _ => inversion HR; subst; clear HR
      end;
  simpl.

(** What an execution leaves alone: the run's status, its source files and
    its step results; and [files] only ever grows at the end. *)
Lemma execute_frame env self w :
  let dp := data_pipeline w in
  let dp' := data_pipeline (execute env self w).2 in
  pipeline_status dp' = pipeline_status dp /\
  source_files dp' = source_files dp /\
  step_results dp' = step_results dp /\
  (files dp' = files dp \/ files dp' = files dp ++ [extraction_artifact self]).
Proof.
  simpl. ran_cases env self w; auto.
Qed.

(** An execution only adds to the history. *)
Lemma execute_history env self w :
  history (execute env self w).2 = history w ++ calls_of env self w.
Proof.
  paths; reflexivity.
Qed.

(** What a successful execution did last and what it left: the artifact was
    added and then uploaded with its one log entry, and nothing else of the
    context changed. *)
Lemma execute_returned env self w r w' :
  execute env self w = (Returned r, w') ->
  exists before result,
    let cfg := configuration self in
    calls_of env self w =
      before ++
      [ {| event := EvAddFile "content_understanding_output.json" ExtractedContent;
           raised := None |};
        {| event := EvUpload (extraction_artifact self) (app_storage_blob_url cfg)
                      (app_cps_processes cfg) (model_dump_json env result);
           raised := None |} ] /\
    count is_add_file_or_upload before = 0 /\
    data_pipeline w' =
      set_files (files (data_pipeline w) ++ [extraction_artifact self]) (data_pipeline w) /\
    r = {| sr_process_id := process_id (pipeline_status (data_pipeline w));
           sr_step_name := handler_name self;
           sr_result := {[ "result" := "success";
                           "file_name" := "content_understanding_output.json" ]} |}.
Proof.
  intros H.
  pose proof (f_equal fst H) as Hr. pose proof (f_equal snd H) as Hw.
  clear H. simpl in Hr, Hw. subst w'. revert Hr.
  ran_cases env self w; intros Hr; try discriminate Hr.
  all: injection Hr as <-.
  all: match goal with
       | |- exists before result, ?l = _ /\ _ =>
           let pre := eval simpl in (take (length l - 2) l) in
           exists pre
       end.
  all: eexists; repeat split; reflexivity.
Qed.

(** *** The existence check *)

(** C1, as the code has it.  When the existence check of the analyzer raises
    an error that is not an [HTTPError], the step fails with that very error
    right after the check: no provisioning call is made and the context is
    left as it was.  When it raises an [HTTPError], whatever its status, the
    provisioning branch is entered: the next call fetches the schema from the
    catalog. *)
Theorem existence_check_error env self w e :
  existence_check self w (Some e) ∈ calls_of env self w ->
  if is_HTTPError e
  then exists o t,
         let cfg := configuration self in
         calls_of env self w =
           print_call self w :: existence_check self w (Some e) ::
           {| event := EvGetSchema (app_cosmos_connstr cfg) (app_cosmos_database cfg)
                         (app_cosmos_container_schema cfg)
                         (schema_id (pipeline_status (data_pipeline w)));
              raised := o |} :: t
  else (execute env self w).1 = Raised e /\
       calls_of env self w = [print_call self w; existence_check self w (Some e)] /\
       count is_provisioning (calls_of env self w) = 0 /\
       data_pipeline (execute env self w).2 = data_pipeline w.
Proof.
  ran_cases env self w; unfold_calls; intros Hin; which_call Hin.
  all: injection Hin as ->.
  all: match goal with Hh : is_HTTPError _ = _ |- _ => rewrite Hh end.
  all: try (eexists _, _; reflexivity).
  all: repeat split; reflexivity.
Qed.

(** A service that is up, asked about a missing analyzer, answers 404; here
    the check fails with a connection error instead, and the step stops. *)
Lemma existence_check_error_witness :
  (execute (service (Some (OtherException "ConnectionError")) (Returned "{}"))
     extract (run [invoice])).1
  = Raised (OtherException "ConnectionError").
Proof.
  apply (existence_check_error
           (service (Some (OtherException "ConnectionError")) (Returned "{}"))
           extract (run [invoice]) (OtherException "ConnectionError")).
  call_made.
Defined.

(** C1 fails as stated: the service answers the existence check with status
    500, which is not the not-found condition, and the step neither fails
    with that error nor stays out of the provisioning branch: it makes all
    four provisioning calls and goes on to return a result. *)
Lemma server_error_is_provisioned :
  let env := service (Some (HTTPError 500)) (Returned "{}") in
  let w := run [invoice] in
  existence_check extract w (Some (HTTPError 500)) ∈ calls_of env extract w /\
  is_not_found (HTTPError 500) = false /\
  returned (execute env extract w).1 = true /\
  count is_provisioning (calls_of env extract w) = 4 /\
  ~ ((execute env extract w).1 = Raised (HTTPError 500) /\
     count is_provisioning (calls_of env extract w) = 0).
Proof.
  repeat split.
  - call_made.
  - intros [_ H]. vm_compute in H. discriminate H.
Qed.

(** *** Missing input *)

(** C2, as the code has it.  With no source file the step always fails and
    leaves the context as it was; it never downloads, submits, polls, adds a
    file or uploads.  When the helper object cannot be built the step fails
    with that error, having made no call but the [print].  Otherwise the
    existence check is still made first, and every call after it is a
    provisioning call: none when the check succeeds or raises an error that
    is not an [HTTPError], which then is the failure of the step; on an
    [HTTPError] the catalog fetch and the provisioning calls that follow it,
    and then the failure is the error of the last of them or, when all four
    succeeded, the [IndexError] of taking the first source file, as it is
    when the check succeeded. *)
Theorem no_source_file env self w :
  source_files (data_pipeline w) = [] ->
  returned (execute env self w).1 = false /\
  data_pipeline (execute env self w).2 = data_pipeline w /\
  count is_analysis_or_later (calls_of env self w) = 0 /\
  match helper_answer env self w with
  | Raised e =>
      (execute env self w).1 = Raised e /\
      calls_of env self w = [print_call self w]
  | Returned _ =>
      exists o t,
        calls_of env self w = print_call self w :: existence_check self w o :: t /\
        Forall (fun c => is_provisioning (event c) = true) t /\
        match o with
        | None => t = [] /\ (execute env self w).1 = Raised IndexError
        | Some e =>
            if is_HTTPError e
            then (exists o' t', t = fetch_call self w o' :: t') /\
                 ((execute env self w).1 = Raised IndexError /\
                  count is_provisioning t = 4 /\
                  Forall (fun c => raised c = None) t
                  \/
                  exists c e', last t = Some c /\ raised c = Some e' /\
                               (execute env self w).1 = Raised e')
            else t = [] /\ (execute env self w).1 = Raised e
        end
  end.
Proof.
  intros Hsrc. revert Hsrc.
  ran_cases env self w; intros Hsrc; try congruence.
  all: repeat (split; [reflexivity|]).
  all: match goal with Hh : helper_answer _ _ _ = _ |- _ => rewrite Hh end.
  all: try (split; reflexivity).
  all: eexists _, _; split; [reflexivity|].
  all: split; [repeat constructor|].
  all: try match goal with Hh : is_HTTPError _ = _ |- _ => rewrite Hh end.
  all: try (split; reflexivity).
  all: split; [eexists _, _; reflexivity|].
  all: first [ solve [left; repeat split; first [reflexivity | repeat constructor]]
             | right; eexists _, _; repeat split; reflexivity ].
Qed.

Lemma no_source_file_witness :
  returned (execute (service None (Returned "{}")) extract (run [])).1 = false.
Proof.
  apply (no_source_file (service None (Returned "{}")) extract (run [])).
  reflexivity.
Defined.

(** C2 fails as stated: with no source file the step fails with
    [IndexError], and only after the existence check and, the analyzer being
    absent, the catalog fetch, the schema load and the create-analyzer
    request have gone over the network. *)
Lemma no_source_file_fails_after_network_calls :
  let env := service None (Returned "{}") in
  let w := run [] in
  source_files (data_pipeline w) = [] /\
  (execute env extract w).1 = Raised IndexError /\
  count is_network_call (calls_of env extract w) = 4 /\
  ~ count is_network_call (calls_of env extract w) = 0.
Proof.
  repeat split. vm_compute. discriminate.
Qed.

(** *** An analyzer that exists *)

(** C3.  When the existence check succeeds the step makes no provisioning
    call (no catalog lookup, no schema load, no template, no create-analyzer)
    and goes straight on to the analysis: with a source file at hand the next
    call downloads it.  This holds in whatever world the step starts, so also
    when it follows a first successful execution: that one left the
    [schema_id] as it was, and the second makes no create-analyzer call. *)
Theorem existing_analyzer_is_not_provisioned env self w :
  existence_check self w None ∈ calls_of env self w ->
  count is_provisioning (calls_of env self w) = 0 /\
  (forall first rest,
     source_files (data_pipeline w) = first :: rest ->
     exists o t,
       calls_of env self w =
         print_call self w :: existence_check self w None ::
         {| event := EvDownloadStream first (app_storage_blob_url (configuration self))
                       (app_cps_processes (configuration self));
            raised := o |} :: t) /\
  (forall w0 r0,
     execute env self w0 = (Returned r0, w) ->
     schema_id (pipeline_status (data_pipeline w)) =
       schema_id (pipeline_status (data_pipeline w0)) /\
     count is_create_analyzer (calls_of env self w) = 0).
Proof.
  intros H.
  assert (Hnone : count is_provisioning (calls_of env self w) = 0 /\
                  count is_create_analyzer (calls_of env self w) = 0 /\
                  forall first rest,
                    source_files (data_pipeline w) = first :: rest ->
                    exists o t,
                      calls_of env self w =
                        print_call self w :: existence_check self w None ::
                        {| event := EvDownloadStream first
                                      (app_storage_blob_url (configuration self))
                                      (app_cps_processes (configuration self));
                           raised := o |} :: t).
  { revert H.
    ran_cases env self w; unfold_calls; intros Hin; which_call Hin.
    all: split; [reflexivity|]; split; [reflexivity|].
    all: intros first' rest'.
    all: match goal with
         | Hs : source_files _ = _ |- _ => rewrite Hs
         end.
    all: intros Hsrc; try discriminate Hsrc.
    all: injection Hsrc as <- <-.
    all: eexists _, _; reflexivity. }
  destruct Hnone as (Hprov & Hcreate & Hnext).
  split; [exact Hprov|]. split; [exact Hnext|].
  intros w0 r0 Hfirst. split; [|exact Hcreate].
  pose proof (execute_frame env self w0) as Hframe.
  rewrite Hfirst in Hframe. simpl in Hframe.
  destruct Hframe as [-> _]. reflexivity.
Qed.

(** The service keeps the analyzers it created: a first execution provisions
    ["inv-2025"], the second finds it and provisions nothing. *)
Lemma existing_analyzer_is_not_provisioned_witness :
  let env := service None (Returned "{}") in
  let w1 := (execute env extract (run [invoice])).2 in
  count is_provisioning (calls_of env extract (run [invoice])) = 4 /\
  count is_provisioning (calls_of env extract w1) = 0.
Proof.
  split; [reflexivity|].
  apply (existing_analyzer_is_not_provisioned (service None (Returned "{}")) extract
           (execute (service None (Returned "{}")) extract (run [invoice])).2).
  call_made.
Defined.

(** *** Provisioning *)

Lemma not_found_is_HTTPError e : is_not_found e = true -> is_HTTPError e = true.
Proof.
  destruct e; simpl; congruence.
Qed.

(** A provisioning call that raised contradicts the assumption that none did. *)
Ltac provisioning_succeeded Hok :=
  apply Forall_forall in Hok;
  repeat match type of Hok with
         | Forall _ (_ :: _) =>
             let Hc := fresh "Hc" in
             apply Forall_cons in Hok; destruct Hok as [Hc Hok]; simpl in Hc;
             try discriminate (Hc eq_refl)
         end.

(** C4.  When the existence check reports not-found and no provisioning call
    fails, the step makes, right after the check and in this order: the fetch
    of the schema record from the catalog by [schema_id]; the load of the
    schema implementation from the container
    [{app_cps_configuration}/Schemas/{schema_id}] under the file name and
    class name of the fetched record; the translation of the loaded schema
    into a template; the create-analyzer request for the same [schema_id]
    with that template.  Nothing after them is a provisioning call, so the
    analyzer is created exactly once, and the analysis comes later. *)
Theorem provisioning_order env self w e :
  existence_check self w (Some e) ∈ calls_of env self w ->
  is_not_found e = true ->
  (forall c, c ∈ calls_of env self w -> is_provisioning (event c) = true -> raised c = None) ->
  exists selected_schema schema_model cu_schema t,
    let cfg := configuration self in
    let analyzer_id := schema_id (pipeline_status (data_pipeline w)) in
    let container_name := app_cps_configuration cfg +:+ "/Schemas/" +:+ analyzer_id in
    let checked := history w ++ [print_call self w; existence_check self w (Some e)] in
    let fetch :=
      {| event := EvGetSchema (app_cosmos_connstr cfg) (app_cosmos_database cfg)
                    (app_cosmos_container_schema cfg) analyzer_id;
         raised := None |} in
    let load :=
      {| event := EvLoadSchemaFromBlob (app_storage_blob_url cfg) container_name
                    (FileName selected_schema) (ClassName selected_schema);
         raised := None |} in
    let build := {| event := EvBuildSchema schema_model; raised := None |} in
    let create :=
      {| event := EvCreateAnalyzer (app_content_understanding_endpoint cfg) analyzer_id
                    cu_schema;
         raised := None |} in
    get_schema env checked (app_cosmos_connstr cfg) (app_cosmos_database cfg)
      (app_cosmos_container_schema cfg) analyzer_id = Returned selected_schema /\
    load_schema_from_blob env (checked ++ [fetch]) (app_storage_blob_url cfg) container_name
      (FileName selected_schema) (ClassName selected_schema) = Returned schema_model /\
    build_content_understanding_schema env schema_model = Returned cu_schema /\
    calls_of env self w =
      print_call self w :: existence_check self w (Some e) ::
      fetch :: load :: build :: create :: t /\
    count is_provisioning t = 0 /\
    count is_analysis_or_later
      [print_call self w; existence_check self w (Some e); fetch; load; build; create] = 0 /\
    count is_create_analyzer (calls_of env self w) = 1.
Proof.
  ran_cases env self w; unfold_calls; intros Hin Hnf Hok; which_call Hin.
  all: injection Hin as ->.
  all: apply not_found_is_HTTPError in Hnf; try congruence.
  all: provisioning_succeeded Hok.
  all: unfold fetch_answer, load_answer in *; unfold_calls.
  all: rewrite <- ?app_assoc in *; simpl in *.
  all: eexists _, _, _, _.
  all: split; [eassumption|].
  all: split; [eassumption|].
  all: split; [eassumption|].
  all: repeat split; reflexivity.
Qed.

(** Scenario A: the analyzer ["inv-2025"] is absent; the catalog record
    names ["invoice.py"] and ["Invoice"]. *)
Lemma provisioning_order_witness :
  count is_create_analyzer (calls_of (service None (Returned "{}")) extract (run [invoice])) = 1.
Proof.
  destruct (provisioning_order (service None (Returned "{}")) extract (run [invoice])
              (HTTPError 404)) as (s & m & t & rest & H).
  - call_made.
  - reflexivity.
  - refine (proj1 (Forall_forall
                     (fun c => is_provisioning (event c) = true -> raised c = None) _) _).
    vm_compute.
    repeat (constructor; [intros Hp; first [reflexivity | discriminate Hp]|]).
    constructor.
  - apply H.
Defined.

(** *** A failed analysis *)

(** C5.  When polling the analysis job raises, the step fails with that
    error; polling was its last call; no file was added, nothing was
    uploaded, and the context, its [files] among the rest, is as before. *)
Theorem analysis_failure env self w endpoint job e :
  {| event := EvPollResult endpoint job; raised := Some e |} ∈ calls_of env self w ->
  (execute env self w).1 = Raised e /\
  last (calls_of env self w) = Some {| event := EvPollResult endpoint job; raised := Some e |} /\
  count is_add_file_or_upload (calls_of env self w) = 0 /\
  data_pipeline (execute env self w).2 = data_pipeline w.
Proof.
  ran_cases env self w; unfold_calls; intros Hin; which_call Hin.
  all: injection Hin as -> -> ->.
  all: repeat split; reflexivity.
Qed.

(** Scenario D: the job ends in a terminal failure. *)
Lemma analysis_failure_witness :
  let env := service None (Raised (OtherException "AnalysisFailed")) in
  (execute env extract (run [invoice])).1 = Raised (OtherException "AnalysisFailed") /\
  files (data_pipeline (execute env extract (run [invoice])).2) = [].
Proof.
  destruct (analysis_failure (service None (Raised (OtherException "AnalysisFailed")))
              extract (run [invoice]) "https://example.com/content" "operation-1"
              (OtherException "AnalysisFailed")) as (Ho & _ & _ & Hdp).
  - call_made.
  - split; [exact Ho | rewrite Hdp; reflexivity].
Defined.

(** *** A successful execution *)

Lemma count_app p t1 t2 : count p (t1 ++ t2) = count p t1 + count p t2.
Proof.
  induction t1 as [|c t1 IH]; simpl; [reflexivity|].
  rewrite IH. lia.
Qed.

(** Driving a list of steps keeps the process id of every recorded result. *)
Lemma drive_carries env steps :
  forall w pid,
    process_id (pipeline_status (data_pipeline w)) = pid ->
    Forall (carries pid) (step_results (data_pipeline w)) ->
    Forall (carries pid) (step_results (data_pipeline (drive env steps w).2)).
Proof.
  induction steps as [|self rest IH]; intros w pid Hpid Hall; simpl; [exact Hall|].
  destruct (execute env self w) as [[r|e] w'] eqn:Hexec.
  - apply execute_returned in Hexec as (before & result & _ & _ & Hdp & Hr).
    apply IH; simpl; rewrite Hdp; simpl; [exact Hpid|].
    apply Forall_app. split; [exact Hall|].
    constructor; [|constructor].
    unfold carries. rewrite Hr. simpl. exact Hpid.
  - simpl.
    pose proof (execute_frame env self w) as Hframe.
    rewrite Hexec in Hframe. simpl in Hframe.
    destruct Hframe as (_ & _ & -> & _). exact Hall.
Qed.

(** C6.  The result a successful execution returns carries the context's
    [process_id], which the execution leaves as it was; so, when the driver
    runs steps one after the other and records what they return, every
    recorded result carries the run's [process_id]. *)
Theorem step_result_process_id env self w :
  (forall r w',
     execute env self w = (Returned r, w') ->
     sr_process_id r = process_id (pipeline_status (data_pipeline w)) /\
     process_id (pipeline_status (data_pipeline w')) =
       process_id (pipeline_status (data_pipeline w))) /\
  (forall steps,
     step_results (data_pipeline w) = [] ->
     Forall (carries (process_id (pipeline_status (data_pipeline w))))
       (step_results (data_pipeline (drive env steps w).2))).
Proof.
  split.
  - intros r w' Hexec.
    apply execute_returned in Hexec as (before & result & _ & _ & Hdp & Hr).
    rewrite Hdp, Hr. split; reflexivity.
  - intros steps Hnone.
    apply drive_carries; [reflexivity|].
    rewrite Hnone. constructor.
Qed.

Lemma step_result_process_id_witness :
  exists r,
    (execute (service None (Returned "{}")) extract (run [invoice])).1 = Returned r /\
    sr_process_id r = "p-001".
Proof.
  destruct (execute (service None (Returned "{}")) extract (run [invoice]))
    as [[r|e] w'] eqn:Hexec;
    [|vm_compute in Hexec; discriminate Hexec].
  exists r. split; [reflexivity|].
  apply (proj1 (step_result_process_id (service None (Returned "{}")) extract
                  (run [invoice])) r w' Hexec).
Defined.

(** C7, as the code has it.  The result payload of a successful execution is
    the mapping with the two keys ["result"] and ["file_name"]: ["result"] is
    ["success"] and ["file_name"] is the name of the artifact the execution
    created, the last of the context's [files]. *)
Theorem step_result_payload env self w r w' :
  execute env self w = (Returned r, w') ->
  sr_result r =
    {[ "result" := "success"; "file_name" := "content_understanding_output.json" ]} /\
  sr_result r !! "result" = Some "success" /\
  exists created,
    last (files (data_pipeline w')) = Some created /\
    sr_result r !! "file_name" = Some (name created).
Proof.
  intros Hexec.
  apply execute_returned in Hexec as (before & result & _ & _ & Hdp & Hr).
  rewrite Hdp, Hr. simpl.
  split; [reflexivity|]. split; [reflexivity|].
  exists (extraction_artifact self).
  split; [apply last_snoc | reflexivity].
Qed.

Lemma step_result_payload_witness :
  exists r,
    (execute (service None (Returned "{}")) extract (run [invoice])).1 = Returned r /\
    sr_result r !! "result" = Some "success".
Proof.
  destruct (execute (service None (Returned "{}")) extract (run [invoice]))
    as [[r|e] w'] eqn:Hexec;
    [|vm_compute in Hexec; discriminate Hexec].
  exists r. split; [reflexivity|].
  apply (step_result_payload (service None (Returned "{}")) extract (run [invoice])
           r w' Hexec).
Defined.

(** C7 fails as stated: the payload of a successful execution has no
    ["status"] key, so it is not the mapping
    [{status: success, file_name: ...}]. *)
Lemma step_result_payload_has_no_status :
  exists r,
    (execute (service None (Returned "{}")) extract (run [invoice])).1 = Returned r /\
    sr_result r !! "status" = None /\
    sr_result r <>
      {[ "status" := "success"; "file_name" := "content_understanding_output.json" ]}.
Proof.
  eexists. split; [reflexivity|]. split; [reflexivity|].
  intros H. apply (f_equal (fun m => m !! "status")) in H.
  vm_compute in H. discriminate H.
Qed.

(** C8.  A successful execution ends with [add_file] and then the upload.
    The artifact it uploads is the one it created, now the last of the
    context's [files]: named ["content_understanding_output.json"], of type
    [ExtractedContent], and carrying, at the moment of the upload, exactly
    one log entry, appended to the empty log of the new artifact and naming
    this step as its source. *)
Theorem uploaded_artifact env self w r w' :
  execute env self w = (Returned r, w') ->
  exists before uploaded text,
    let cfg := configuration self in
    calls_of env self w =
      before ++
      [ {| event := EvAddFile "content_understanding_output.json" ExtractedContent;
           raised := None |};
        {| event := EvUpload uploaded (app_storage_blob_url cfg) (app_cps_processes cfg) text;
           raised := None |} ] /\
    last (files (data_pipeline w')) = Some uploaded /\
    name uploaded = "content_understanding_output.json" /\
    artifact_type uploaded = ExtractedContent /\
    length (log_entries uploaded) = 1 /\
    log_entries uploaded =
      [] ++ [{| source := handler_name self;
                message := "Content Understanding Extraction Result has been added" |}] /\
    source <$> log_entries uploaded = [handler_name self].
Proof.
  intros Hexec.
  apply execute_returned in Hexec as (before & result & Hcalls & _ & Hdp & _).
  exists before, (extraction_artifact self), (model_dump_json env result).
  simpl. split; [exact Hcalls|].
  rewrite Hdp. simpl.
  split; [apply last_snoc|].
  repeat split; reflexivity.
Qed.

Lemma uploaded_artifact_witness :
  exists uploaded,
    last (files (data_pipeline
                   (execute (service None (Returned "{}")) extract (run [invoice])).2))
    = Some uploaded /\
    length (log_entries uploaded) = 1.
Proof.
  destruct (execute (service None (Returned "{}")) extract (run [invoice]))
    as [[r|e] w'] eqn:Hexec;
    [|vm_compute in Hexec; discriminate Hexec].
  destruct (uploaded_artifact (service None (Returned "{}")) extract (run [invoice])
              r w' Hexec) as (before & uploaded & text & _ & Hlast & _ & _ & Hlen & _).
  exists uploaded. split; [exact Hlast | exact Hlen].
Defined.

(** C9.  A successful execution calls [add_file] once and appends exactly
    one artifact to the context's [files]; every artifact that was there
    stays where it was and as it was, and the source files, the recorded step
    results and the run's status are left as they were. *)
Theorem one_artifact_appended env self w r w' :
  execute env self w = (Returned r, w') ->
  (exists created, files (data_pipeline w') = files (data_pipeline w) ++ [created]) /\
  length (files (data_pipeline w')) = S (length (files (data_pipeline w))) /\
  (forall i a, files (data_pipeline w) !! i = Some a ->
               files (data_pipeline w') !! i = Some a) /\
  count is_add_file (calls_of env self w) = 1 /\
  source_files (data_pipeline w') = source_files (data_pipeline w) /\
  step_results (data_pipeline w') = step_results (data_pipeline w) /\
  pipeline_status (data_pipeline w') = pipeline_status (data_pipeline w).
Proof.
  intros Hexec.
  apply execute_returned in Hexec as (before & result & Hcalls & Hbefore & Hdp & _).
  rewrite Hdp, Hcalls. simpl.
  split; [eexists; reflexivity|].
  split; [rewrite length_app; simpl; lia|].
  split; [intros i a Hi; apply lookup_app_l_Some; exact Hi|].
  split; [|repeat split; reflexivity].
  rewrite count_app. simpl.
  assert (count is_add_file before = 0) as ->; [|reflexivity].
  clear -Hbefore.
  induction before as [|c t IH]; simpl in *; [reflexivity|].
  destruct (event c); simpl in *; try discriminate Hbefore; apply IH; exact Hbefore.
Qed.

(** Another step has left an artifact in the run; the extraction step adds
    its own after it. *)
Lemma one_artifact_appended_witness :
  let earlier := {| name := "invoice.pdf"; artifact_type := SourceContent; log_entries := [] |} in
  let w := {| data_pipeline := set_files [earlier] (data_pipeline (run [invoice]));
              history := [] |} in
  files (data_pipeline (execute (service None (Returned "{}")) extract w).2) !! 0
  = Some earlier.
Proof.
  intros earlier w.
  destruct (execute (service None (Returned "{}")) extract w) as [[r|e] w'] eqn:Hexec;
    [|vm_compute in Hexec; discriminate Hexec].
  destruct (one_artifact_appended (service None (Returned "{}")) extract w r w' Hexec)
    as (_ & _ & Hkept & _).
  apply Hkept. reflexivity.
Defined.

End ExtractFacts.

(** ** Properties of the settings singleton *)

Module AppSettingsFacts.
Import AppSettings.

Lemma count_snoc p l ef : count_effects p (l ++ [ef]) = count_effects p l + (if p ef then 1 else 0).
Proof.
  induction l as [|x l IH]; simpl; [lia|].
  rewrite IH. lia.
Qed.

(** Once the global is set, a call returns it and does nothing else. *)
Lemma get_app_config_set env st c :
  app_config st = Some c -> get_app_config env st = (Returned c, st).
Proof.
  intros H. unfold get_app_config. rewrite H. reflexivity.
Qed.

Lemma call_times_set env n : forall st c,
  app_config st = Some c -> call_times env n st = (replicate n (Returned c), st).
Proof.
  induction n as [|n IH]; intros st c H; simpl; [reflexivity|].
  rewrite (get_app_config_set env st c H), (IH st c H). reflexivity.
Qed.

(** Splitting on what [AppConfiguration()], [getattr] and [basicConfig]
    give, and on whether logging is enabled. *)
Ltac cases_of_call :=
  unfold get_app_config;
  repeat match goal with
         | |- context [match app_config ?st with _ => _ end] =>
             destruct (app_config st) eqn:?; simpl
         | |- context [match ?o with Returned _ => _ | Raised _ => _ end] =>
             destruct o eqn:?; simpl
         | |- context [if app_logging_enable ?c then _ else _] =>
             destruct (app_logging_enable c) eqn:?; simpl
         end.

(** A call that returns leaves the returned object in the global; a global
    that is set stays as it is. *)
Lemma get_app_config_returned env st c :
  (get_app_config env st).1 = Returned c -> app_config (get_app_config env st).2 = Some c.
Proof.
  cases_of_call; intros H; try discriminate H; congruence.
Qed.

Lemma get_app_config_keeps env st c :
  app_config st = Some c -> app_config (get_app_config env st).2 = Some c.
Proof.
  intros H. rewrite (get_app_config_set env st c H). exact H.
Qed.

Lemma get_app_config_consistent env st :
  consistent st -> consistent (get_app_config env st).2.
Proof.
  unfold consistent.
  cases_of_call; simpl in *; try congruence; rewrite ?count_snoc; simpl; lia.
Qed.

Lemma call_times_consistent env n : forall st,
  consistent st -> consistent (call_times env n st).2.
Proof.
  induction n as [|n IH]; intros st H; simpl; [exact H|].
  pose proof (get_app_config_consistent env st H) as H1.
  destruct (get_app_config env st) as [o st1]. simpl in H1.
  specialize (IH st1 H1).
  destruct (call_times env n st1) as [os st2]. exact IH.
Qed.

(** Every object a run of calls returned is the one left in the global. *)
Lemma call_times_returned env n : forall st c,
  c ∈ returned_objects (call_times env n st).1 ->
  app_config (call_times env n st).2 = Some c.
Proof.
  induction n as [|n IH]; intros st c; simpl.
  - intros H. apply elem_of_nil in H. contradiction.
  - pose proof (get_app_config_returned env st) as Hret.
    destruct (get_app_config env st) as [o st1]. simpl in Hret.
    pose proof (IH st1 c) as IHc.
    pose proof (call_times_set env n st1) as Hset.
    destruct (call_times env n st1) as [os st2]. simpl in *.
    destruct o as [c0|e]; simpl; [|exact IHc].
    intros H. apply elem_of_cons in H as [-> | H]; [|exact (IHc H)].
    specialize (Hset c0 (Hret c0 eq_refl)).
    injection Hset as _ <-. apply Hret. reflexivity.
Qed.

(** A first call that returns has constructed the object and configured
    logging, once each. *)
Lemma first_call_returned env c st1 :
  get_app_config env initial = (Returned c, st1) ->
  app_config st1 = Some c /\
  count_effects is_constructed (effects st1) = 1 /\
  count_effects is_logging_configured (effects st1) = 1.
Proof.
  unfold get_app_config, initial. simpl.
  repeat match goal with
         | |- context [match ?o with Returned _ => _ | Raised _ => _ end] =>
             destruct o eqn:?; simpl
         | |- context [if app_logging_enable ?c then _ else _] =>
             destruct (app_logging_enable c) eqn:?; simpl
         end.
  all: intros H; try discriminate H.
  all: injection H as <- <-; simpl; auto.
Qed.

(** C10, as the code has it.  Over any number of calls in one process, an
    [AppConfiguration] is constructed at most once and logging is configured
    at most once, and the calls that return all return the same object.  A
    call that has returned makes the next call return the same object with
    no further effect.  When the first call returns, the construction and
    the configuration of logging happened on it, once each, and every call
    returns its object and leaves the process as the first call left it. *)
Theorem get_app_config_singleton env n :
  let outcomes := (call_times env n initial).1 in
  let final := (call_times env n initial).2 in
  count_effects is_constructed (effects final) <= 1 /\
  count_effects is_logging_configured (effects final) <= 1 /\
  (forall c c',
     c ∈ returned_objects outcomes -> c' ∈ returned_objects outcomes -> c = c') /\
  (forall st c,
     (get_app_config env st).1 = Returned c ->
     get_app_config env (get_app_config env st).2
     = (Returned c, (get_app_config env st).2)) /\
  (forall c st1,
     get_app_config env initial = (Returned c, st1) ->
     0 < n ->
     outcomes = replicate n (Returned c) /\
     final = st1 /\
     count_effects is_constructed (effects st1) = 1 /\
     count_effects is_logging_configured (effects st1) = 1).
Proof.
  intros outcomes final.
  assert (Hinit : consistent initial) by (split; reflexivity).
  pose proof (call_times_consistent env n initial Hinit) as Hfinal.
  fold final in Hfinal. unfold consistent in Hfinal.
  split; [destruct (app_config final); lia|].
  split; [destruct (app_config final); lia|].
  split; [|split].
  - intros c c' Hc Hc'.
    apply call_times_returned in Hc, Hc'.
    congruence.
  - intros st c Hret.
    apply get_app_config_set, get_app_config_returned, Hret.
  - intros c st1 Hfirst Hn.
    destruct (first_call_returned env c st1 Hfirst) as (Hset & Hcons & Hlog).
    subst outcomes final.
    destruct n as [|n]; [lia|].
    simpl. rewrite Hfirst, (call_times_set env n st1 c Hset). simpl.
    repeat split; assumption.
Qed.

(** Logging enabled at level ["DEBUG"]: three calls, one object. *)
Lemma get_app_config_singleton_witness :
  (call_times (process_with "DEBUG") 3 initial).1
  = replicate 3 (Returned (settings "DEBUG")).
Proof.
  destruct (get_app_config_singleton (process_with "DEBUG") 3) as (_ & _ & _ & _ & H).
  destruct (H (settings "DEBUG") (get_app_config (process_with "DEBUG") initial).2)
    as (Hall & _).
  - reflexivity.
  - lia.
  - exact Hall.
Defined.

(** C10 fails as stated: with logging enabled at a level that [logging] does
    not have, the first call raises after it has set the global, and the
    second call returns the object; so not every call returns the object,
    and logging is never configured. *)
Lemma first_call_raises_second_returns :
  let env := process_with "VERBOSE" in
  (call_times env 2 initial).1
  = [Raised (AttributeError "VERBOSE"); Returned (settings "VERBOSE")] /\
  (call_times env 2 initial).1 <> replicate 2 (Returned (settings "VERBOSE")) /\
  count_effects is_logging_configured (effects (call_times env 2 initial).2) = 0.
Proof.
  repeat split. vm_compute. discriminate.
Qed.

End AppSettingsFacts.

(** ** Further properties of the extraction step *)

Module ExtractMoreFacts.
Import Extract Extract.Scenario ExtractObservations ExtractFacts.

(** X1.  Only the existence check is guarded.  When any other call raises,
    an [HTTPError] included, the step fails with that error and makes no
    further call. *)
Theorem unguarded_failure env self w c e :
  c ∈ calls_of env self w ->
  raised c = Some e ->
  is_existence_check (event c) = false ->
  (execute env self w).1 = Raised e /\
  last (calls_of env self w) = Some c.
Proof.
  ran_cases env self w; intros Hin Hr Hn; which_call Hin.
  all: subst c; unfold_calls; simpl in Hr, Hn; try discriminate.
  all: injection Hr as <-; split; reflexivity.
Qed.

(** The analyzer is absent and the create-analyzer request is refused with
    an [HTTPError]: it is not caught. *)
Lemma unguarded_failure_witness :
  let env :=
    {| new_AzureContentUnderstandingHelper _ _ := Returned tt;
       get_analyzer_detail_by_id _ _ _ := Raised (HTTPError 404);
       get_schema _ _ _ _ _ := Returned {| FileName := "invoice.py"; ClassName := "Invoice" |};
       load_schema_from_blob _ _ _ _ module_name := Returned module_name;
       build_content_understanding_schema m := Returned m;
       begin_create_analyzer _ _ _ _ := Raised (HTTPError 409);
       download_stream _ f _ _ := Returned (ref_name f);
       begin_analyze_stream _ _ _ _ := Returned "operation-1";
       poll_result _ _ r := Returned r;
       parse_AnalyzedResult r := Returned r;
       model_dump_json r := r;
       upload_json_text _ _ _ _ _ := Returned tt |} in
  (execute env extract (run [invoice])).1 = Raised (HTTPError 409).
Proof.
  intros env.
  apply (unguarded_failure env extract (run [invoice])
           {| event := EvCreateAnalyzer "https://example.com/content" "inv-2025" "Invoice";
              raised := Some (HTTPError 409) |} (HTTPError 409)).
  - call_made.
  - reflexivity.
  - reflexivity.
Defined.

(** X2.  A provisioning call that raises ends the step there, with its
    error: no source file is downloaded, nothing is submitted, polled, added
    or uploaded, and the context is as before. *)
Theorem provisioning_failure env self w c e :
  c ∈ calls_of env self w ->
  is_provisioning (event c) = true ->
  raised c = Some e ->
  (execute env self w).1 = Raised e /\
  count is_analysis_or_later (calls_of env self w) = 0 /\
  data_pipeline (execute env self w).2 = data_pipeline w.
Proof.
  ran_cases env self w; intros Hin Hp Hr; which_call Hin.
  all: subst c; unfold_calls; simpl in Hp, Hr; try discriminate.
  all: injection Hr as <-; repeat split; reflexivity.
Qed.

Lemma provisioning_failure_witness :
  let env :=
    {| new_AzureContentUnderstandingHelper _ _ := Returned tt;
       get_analyzer_detail_by_id _ _ _ := Raised (HTTPError 404);
       get_schema _ _ _ _ _ := Raised (OtherException "CosmosResourceNotFoundError");
       load_schema_from_blob _ _ _ _ module_name := Returned module_name;
       build_content_understanding_schema m := Returned m;
       begin_create_analyzer _ _ _ _ := Returned tt;
       download_stream _ f _ _ := Returned (ref_name f);
       begin_analyze_stream _ _ _ _ := Returned "operation-1";
       poll_result _ _ r := Returned r;
       parse_AnalyzedResult r := Returned r;
       model_dump_json r := r;
       upload_json_text _ _ _ _ _ := Returned tt |} in
  (execute env extract (run [invoice])).1
  = Raised (OtherException "CosmosResourceNotFoundError").
Proof.
  intros env.
  apply (provisioning_failure env extract (run [invoice])
           {| event := EvGetSchema "AccountEndpoint=https://example.com;AccountKey=key;"
                         "database-name" "container-schema" "inv-2025";
              raised := Some (OtherException "CosmosResourceNotFoundError") |}
           (OtherException "CosmosResourceNotFoundError")).
  - call_made.
  - reflexivity.
  - reflexivity.
Defined.

(** X3.  Nothing is undone when the upload fails: the step fails with the
    error of the upload, and the artifact it had added, with its log entry,
    stays at the end of the context's [files]. *)
Theorem upload_failure env self w c e :
  c ∈ calls_of env self w ->
  is_upload (event c) = true ->
  raised c = Some e ->
  (execute env self w).1 = Raised e /\
  files (data_pipeline (execute env self w).2)
  = files (data_pipeline w) ++ [extraction_artifact self] /\
  count is_add_file (calls_of env self w) = 1 /\
  exists text,
    event c = EvUpload (extraction_artifact self) (app_storage_blob_url (configuration self))
                (app_cps_processes (configuration self)) text.
Proof.
  ran_cases env self w; intros Hin Hu Hr; which_call Hin.
  all: subst c; unfold_calls; simpl in Hu, Hr; try discriminate.
  all: injection Hr as <-; repeat split; try reflexivity.
  all: eexists; reflexivity.
Qed.

Lemma upload_failure_witness :
  let env :=
    {| new_AzureContentUnderstandingHelper _ _ := Returned tt;
       get_analyzer_detail_by_id _ _ _ := Returned tt;
       get_schema _ _ _ _ _ := Returned {| FileName := "invoice.py"; ClassName := "Invoice" |};
       load_schema_from_blob _ _ _ _ module_name := Returned module_name;
       build_content_understanding_schema m := Returned m;
       begin_create_analyzer _ _ _ _ := Returned tt;
       download_stream _ f _ _ := Returned (ref_name f);
       begin_analyze_stream _ _ _ _ := Returned "operation-1";
       poll_result _ _ r := Returned "{}";
       parse_AnalyzedResult r := Returned r;
       model_dump_json r := r;
       upload_json_text _ _ _ _ _ := Raised (OtherException "ServiceRequestError") |} in
  files (data_pipeline (execute env extract (run [invoice])).2)
  = [extraction_artifact extract].
Proof.
  intros env.
  destruct (upload_failure env extract (run [invoice])
              {| event := EvUpload (extraction_artifact extract)
                            "https://example.com/blob" "4" "{}";
                 raised := Some (OtherException "ServiceRequestError") |}
              (OtherException "ServiceRequestError")) as (_ & Hfiles & _).
  - call_made.
  - reflexivity.
  - reflexivity.
  - exact Hfiles.
Defined.



(** X5.  Whatever happens, success or failure, the artifacts that were in
    the context stay where they were and as they were, at most one artifact
    is appended, and the run's status, source files and step results are as
    before. *)
Theorem execution_frame env self w :
  let dp := data_pipeline w in
  let dp' := data_pipeline (execute env self w).2 in
  (forall i a, files dp !! i = Some a -> files dp' !! i = Some a) /\
  length (files dp) <= length (files dp') <= S (length (files dp)) /\
  pipeline_status dp' = pipeline_status dp /\
  source_files dp' = source_files dp /\
  step_results dp' = step_results dp.
Proof.
  intros dp dp'.
  destruct (execute_frame env self w) as (Hstatus & Hsources & Hresults & Hfiles).
  fold dp dp' in Hstatus, Hsources, Hresults, Hfiles.
  split; [|split; [|auto]].
  - intros i a Hi. destruct Hfiles as [-> | ->]; [exact Hi|].
    apply lookup_app_l_Some. exact Hi.
  - destruct Hfiles as [-> | ->]; [lia|].
    rewrite length_app. simpl. lia.
Qed.

(** X6.  How the data flows in a successful execution.  Its last five calls
    are the download of the first source file, the submission, the polling,
    [add_file] and the upload; what is submitted is the stream the download
    returned, what is polled is the response the submission returned, and
    the text uploaded is the JSON dump of the [AnalyzedResult] parsed from
    what the polling returned. *)
Theorem analysis_dataflow env self w r :
  (execute env self w).1 = Returned r ->
  exists before first file_stream job response result,
    calls_of env self w =
      before ++
      [ download_call self first None; submit_call self w file_stream None;
        poll_call self job None; add_file_call;
        upload_call self (model_dump_json env result) None ] /\
    source_files (data_pipeline w) !! 0 = Some first /\
    download_answer env self w before first = Returned file_stream /\
    submit_answer env self w (before ++ [download_call self first None]) file_stream
    = Returned job /\
    poll_answer env self w
      (before ++ [download_call self first None; submit_call self w file_stream None]) job
    = Returned response /\
    parse_AnalyzedResult env response = Returned result.
Proof.
  ran_cases env self w; intros Hr; try discriminate Hr.
  all: match goal with
       | Hd : download_answer _ _ _ ?pre _ = _ |- _ => exists pre
       end.
  all: eexists _, _, _, _, _.
  all: split; [reflexivity|].
  all: split; [match goal with Hs : source_files _ = _ |- _ => rewrite Hs end; reflexivity|].
  all: repeat split; eassumption.
Qed.

Lemma analysis_dataflow_witness :
  exists result,
    last (calls_of (service None (Returned "{}")) extract (run [invoice]))
    = Some (upload_call extract result None).
Proof.
  destruct (execute (service None (Returned "{}")) extract (run [invoice])).1
    as [r|e] eqn:Hexec;
    [|vm_compute in Hexec; discriminate Hexec].
  destruct (analysis_dataflow (service None (Returned "{}")) extract (run [invoice]) r Hexec)
    as (before & first & stream & job & response & result & Hcalls & _).
  exists (model_dump_json (service None (Returned "{}")) result).
  rewrite Hcalls. rewrite last_app. reflexivity.
Defined.

(** The paths exclude one another: the answers of the collaborators decide
    which one is taken. *)
Ltac same_answer :=
  repeat match goal with
         | H1 : ?x = Returned _, H2 : ?x = Raised _ |- _ => rewrite H1 in H2; discriminate H2
         | H1 : ?x = Raised _, H2 : ?x = Returned _ |- _ => rewrite H1 in H2; discriminate H2
         | H1 : ?x = Returned _, H2 : ?x = Returned _ |- _ =>
             rewrite H1 in H2; first [injection H2 as <- | clear H2]
         | H1 : ?x = Raised _, H2 : ?x = Raised _ |- _ =>
             rewrite H1 in H2; first [injection H2 as <- | clear H2]
         | H1 : ?x = [], H2 : ?x = _ :: _ |- _ => rewrite H1 in H2; discriminate H2
         | H1 : ?x = _ :: _, H2 : ?x = [] |- _ => rewrite H1 in H2; discriminate H2
         | H1 : ?x = _ :: _, H2 : ?x = _ :: _ |- _ =>
             rewrite H1 in H2; injection H2 as <- <-
         | H1 : is_HTTPError ?e = true, H2 : is_HTTPError ?e = false |- _ =>
             rewrite H1 in H2; discriminate H2
         end.

Lemma resolved_functional env self w pre1 r1 pre2 r2 :
  Resolved env self w pre1 r1 -> Resolved env self w pre2 r2 -> pre1 = pre2 /\ r1 = r2.
Proof.
  intros H1 H2.
  destruct H1; destruct H2; same_answer; split; reflexivity.
Qed.

(** The analyzer is resolved only with the helper object built. *)
Lemma resolved_helper env self w pre r :
  Resolved env self w pre r -> helper_answer env self w = Returned tt.
Proof.
  intros H. destruct H; assumption.
Qed.

Lemma ran_functional env self w o1 calls1 dp1 o2 calls2 dp2 :
  Ran env self w o1 calls1 dp1 -> Ran env self w o2 calls2 dp2 ->
  o1 = o2 /\ calls1 = calls2 /\ dp1 = dp2.
Proof.
  intros H1 H2.
  destruct H1; destruct H2.
  all: try match goal with
           | Ha : Resolved _ _ _ _ _, Hb : Resolved _ _ _ _ _ |- _ =>
               destruct (resolved_functional _ _ _ _ _ _ _ Ha Hb) as [<- Hres];
               try discriminate Hres; try (injection Hres as <-); clear Hb
           end.
  all: repeat match goal with
              | HR : Resolved _ _ _ _ _ |- _ => apply resolved_helper in HR
              end.
  all: same_answer; repeat split; reflexivity.
Qed.

(** A path of the run with other files after the first is a path of the
    run itself. *)
Lemma resolved_with_sources env self w sources pre r :
  Resolved env self (with_sources sources w) pre r -> Resolved env self w pre r.
Proof.
  intros H.
  destruct H; unfold_calls;
    unfold helper_answer, check_answer, fetch_answer, load_answer, create_answer in *;
    simpl in *.
  - apply resolved_exists; assumption.
  - eapply resolved_lookup_failed; eassumption.
  - eapply resolved_fetch_failed; eassumption.
  - eapply resolved_load_failed; eassumption.
  - eapply resolved_build_failed; eassumption.
  - eapply resolved_create_failed; eassumption.
  - eapply resolved_provisioned; eassumption.
Qed.

Lemma ran_with_sources env self w first rest rest' o calls dp :
  source_files (data_pipeline w) = first :: rest ->
  Ran env self (with_sources (first :: rest') w) o calls dp ->
  Ran env self w o calls (set_files (files dp) (data_pipeline w)).
Proof.
  intros Hsrc H.
  assert (Hsame : set_files (files (data_pipeline w)) (data_pipeline w) = data_pipeline w)
    by (destruct w as [[] ?]; reflexivity).
  destruct H;
    try match goal with
        | HR : Resolved _ _ _ _ _ |- _ => apply resolved_with_sources in HR
        end;
    unfold helper_answer, download_answer, submit_answer, poll_answer, upload_answer in *;
    unfold_calls; simpl in *; rewrite ?Hsame; try discriminate;
    try match goal with
        | Hs : first :: rest' = _ :: _ |- _ => injection Hs as <- <-
        end.
  - apply ran_helper_failed; assumption.
  - apply ran_unresolved; assumption.
  - eapply ran_download_failed; eassumption.
  - eapply ran_submit_failed; eassumption.
  - eapply ran_poll_failed; eassumption.
  - eapply ran_parse_failed; eassumption.
  - eapply ran_upload_failed; eassumption.
  - eapply ran_success; eassumption.
Qed.

(** X7.  Only the first source file is used: with the same first file and
    any other files after it, the step makes the same calls, ends in the
    same way and leaves the same [files]. *)
Theorem only_first_source_file env self w first rest rest' :
  source_files (data_pipeline w) = first :: rest ->
  let w' := with_sources (first :: rest') w in
  (execute env self w').1 = (execute env self w).1 /\
  calls_of env self w' = calls_of env self w /\
  files (data_pipeline (execute env self w').2) = files (data_pipeline (execute env self w).2).
Proof.
  intros Hsrc w'.
  pose proof (ran_with_sources env self w first rest rest' _ _ _ Hsrc
                (execute_ran env self w')) as H'.
  destruct (ran_functional _ _ _ _ _ _ _ _ _ H' (execute_ran env self w))
    as (Ho & Hcalls & Hdp).
  split; [exact Ho|]. split; [exact Hcalls|].
  rewrite <- Hdp. reflexivity.
Qed.

Lemma only_first_source_file_witness :
  let other := {| ref_location := "p-001"; ref_name := "packing-list.pdf" |} in
  calls_of (service None (Returned "{}")) extract (run [invoice; other])
  = calls_of (service None (Returned "{}")) extract (run [invoice]).
Proof.
  intros other.
  apply (only_first_source_file (service None (Returned "{}")) extract (run [invoice])
           invoice [] [other]).
  reflexivity.
Defined.

(** X8.  No call is repeated: within one execution each function (the
    existence check, each provisioning call, the download, the submission,
    the polling, [add_file], the upload) is called at most once; the step
    retries nothing and does not look the analyzer up again after creating
    it. *)
Theorem no_call_is_repeated env self w c :
  c ∈ calls_of env self w ->
  count (same_function (event c)) (calls_of env self w) = 1.
Proof.
  ran_cases env self w; intros Hin; which_call Hin.
  all: subst c; reflexivity.
Qed.

Lemma no_call_is_repeated_witness :
  count is_existence_check (calls_of (service None (Returned "{}")) extract (run [invoice]))
  = 1.
Proof.
  apply (no_call_is_repeated (service None (Returned "{}")) extract (run [invoice])
           (existence_check extract (run [invoice]) (Some (HTTPError 404)))).
  call_made.
Defined.

(** X9.  Running the step twice on the same context, both times with
    success, leaves two artifacts of the same name at the end of [files],
    each with its own single log entry; the second run neither replaces nor
    touches the artifact of the first, and both results name the same
    file. *)
Theorem two_executions env self w r1 w1 r2 w2 :
  execute env self w = (Returned r1, w1) ->
  execute env self w1 = (Returned r2, w2) ->
  files (data_pipeline w2)
  = files (data_pipeline w) ++ [extraction_artifact self; extraction_artifact self] /\
  sr_result r2 = sr_result r1.
Proof.
  intros H1 H2.
  apply execute_returned in H1 as (? & ? & _ & _ & Hdp1 & Hr1).
  apply execute_returned in H2 as (? & ? & _ & _ & Hdp2 & Hr2).
  rewrite Hdp2, Hdp1, Hr1, Hr2. simpl.
  rewrite <- app_assoc. split; reflexivity.
Qed.

Lemma two_executions_witness :
  let env := service None (Returned "{}") in
  length (files (data_pipeline
                   (execute env extract (execute env extract (run [invoice])).2).2)) = 2.
Proof.
  intros env.
  destruct (execute env extract (run [invoice])) as [[r1|e1] w1] eqn:H1;
    [|vm_compute in H1; discriminate H1].
  simpl.
  destruct (execute env extract w1) as [[r2|e2] w2] eqn:H2.
  - destruct (two_executions env extract (run [invoice]) r1 w1 r2 w2 H1 H2) as [Hfiles _].
    simpl. rewrite Hfiles. reflexivity.
  - exfalso. injection H1 as _ <-. vm_compute in H2. discriminate H2.
Defined.



End ExtractMoreFacts.

(** ** Further properties of the settings singleton *)

Module AppSettingsMoreFacts.
Import AppSettings AppSettingsFacts.

(** X11.  The object is stored before logging is set up.  When the level
    name is no attribute of [logging], or [basicConfig] refuses the
    attribute, the call raises, but the global keeps the object it has just
    constructed: every later call, whatever the environment has become,
    returns that object and never sets logging up again. *)
Theorem logging_setup_failure env st c e :
  app_config st = None ->
  new_AppConfiguration env (effects st) = Returned c ->
  (get_app_config env st).1 = Raised e ->
  let st1 := (get_app_config env st).2 in
  app_logging_enable c = true /\
  app_config st1 = Some c /\
  (getattr_logging env (app_logging_level c) = Raised e /\
   effects st1 = effects st ++ [Constructed c]
   \/
   exists attr,
     getattr_logging env (app_logging_level c) = Returned attr /\
     basicConfig env (effects st ++ [Constructed c]) attr = Raised e /\
     effects st1 = effects st ++ [Constructed c; BasicConfig attr (Some e)]) /\
  forall env' n, call_times env' n st1 = (replicate n (Returned c), st1).
Proof.
  intros Hnone Hnew.
  assert (Hlater : forall env' n st1, app_config st1 = Some c ->
                     call_times env' n st1 = (replicate n (Returned c), st1)).
  { intros env' n st1 H. apply call_times_set. exact H. }
  unfold get_app_config. rewrite Hnone, Hnew.
  destruct (app_logging_enable c); simpl; [|discriminate].
  destruct (getattr_logging env (app_logging_level c)) as [attr|e1] eqn:Hattr; simpl.
  - destruct (basicConfig env (effects st ++ [Constructed c]) attr) as [[]|e2] eqn:Hbc;
      simpl; [discriminate|].
    intros He. injection He as ->.
    repeat split; [|intros env' n; apply Hlater; reflexivity].
    right. exists attr. rewrite <- app_assoc. repeat split. exact Hbc.
  - intros He. injection He as ->.
    repeat split; [|intros env' n; apply Hlater; reflexivity].
    left. split; reflexivity.
Qed.

(** A level name in lower case names a function of [logging], not a level:
    the first call raises [TypeError], the second returns the object. *)
Lemma logging_setup_failure_witness :
  (get_app_config (process_with "debug") initial).1 = Raised (OtherException "TypeError") /\
  call_times (process_with "debug") 2 (get_app_config (process_with "debug") initial).2
  = ([Returned (settings "debug"); Returned (settings "debug")],
     (get_app_config (process_with "debug") initial).2).
Proof.
  split; [reflexivity|].
  destruct (logging_setup_failure (process_with "debug") initial (settings "debug")
              (OtherException "TypeError")) as (_ & _ & _ & Hlater);
    [reflexivity | reflexivity | reflexivity |].
  exact (Hlater (process_with "debug") 2%nat).
Defined.



(** X13.  With logging switched off in the settings the level name is never
    looked up and [basicConfig] is never called: whatever [logging] would
    answer, the call returns the object, having disabled logging up to
    [CRITICAL]. *)
Theorem logging_disabled env st c :
  app_config st = None ->
  new_AppConfiguration env (effects st) = Returned c ->
  app_logging_enable c = false ->
  get_app_config env st
  = (Returned c,
     {| app_config := Some c; effects := effects st ++ [Constructed c; Disable CRITICAL] |}) /\
  forall getattr' basicConfig',
    get_app_config
      {| new_AppConfiguration := new_AppConfiguration env;
         getattr_logging := getattr';
         basicConfig := basicConfig' |} st
    = get_app_config env st.
Proof.
  intros Hnone Hnew Hoff.
  unfold get_app_config. simpl. rewrite Hnone, Hnew, Hoff.
  rewrite <- app_assoc. split; reflexivity.
Qed.

(** Logging is off and the level name is not even a name of [logging]. *)
Lemma logging_disabled_witness :
  let env :=
    {| new_AppConfiguration _ := Returned (without_logging (settings "VERBOSE"));
       getattr_logging := python_logging;
       basicConfig _ := python_basicConfig |} in
  (get_app_config env initial).1 = Returned (without_logging (settings "VERBOSE")).
Proof.
  intros env.
  destruct (logging_disabled env initial (without_logging (settings "VERBOSE")))
    as [-> _]; reflexivity.
Defined.

(** X14.  What a first call that returns has done: it constructed the
    object and then either called [basicConfig], when the settings enable
    logging, with the attribute of [logging] that [app_logging_level] names,
    or else disabled logging up to [CRITICAL]; and nothing more. *)
Theorem first_call_effects env c st1 :
  get_app_config env initial = (Returned c, st1) ->
  new_AppConfiguration env [] = Returned c /\
  if app_logging_enable c
  then exists level,
         getattr_logging env (app_logging_level c) = Returned level /\
         basicConfig env [Constructed c] level = Returned tt /\
         effects st1 = [Constructed c; BasicConfig level None]
  else effects st1 = [Constructed c; Disable CRITICAL].
Proof.
  unfold get_app_config, initial. simpl.
  destruct (new_AppConfiguration env []) as [c0|e0]; [|discriminate].
  destruct (app_logging_enable c0) eqn:Hon.
  - destruct (getattr_logging env (app_logging_level c0)) as [level|e1] eqn:Hattr;
      [|discriminate].
    destruct (basicConfig env [Constructed c0] level) as [[]|e2] eqn:Hbc; [|discriminate].
    intros H. injection H as <- <-. rewrite Hon. simpl.
    split; [reflexivity|]. exists level. rewrite Hattr. repeat split. exact Hbc.
  - intros H. injection H as <- <-. rewrite Hon. simpl. split; reflexivity.
Qed.

Lemma first_call_effects_witness :
  effects (get_app_config (process_with "WARN") initial).2
  = [Constructed (settings "WARN"); BasicConfig (Level 30) None].
Proof.
  destruct (first_call_effects (process_with "WARN") (settings "WARN")
              (get_app_config (process_with "WARN") initial).2) as (_ & level & Hattr & _ & ->);
    [reflexivity|].
  simpl in Hattr. injection Hattr as <-. reflexivity.
Defined.

End AppSettingsMoreFacts.
